(** * Quiz lifecycle and grading engine of the university CMS backend

    A shallow embedding of [controllers/quizController.js] (createQuiz,
    getQuizzesBySubject, getStudentQuizzes, startQuiz, submitQuiz,
    getQuizResults), of the quiz part of [reportController.js] and of the
    Mongoose schema of [models/Quiz.js], and the properties of the quiz
    engine proved on it.

    Conventions of the embedding:
    - ObjectIds are compared in the source through [toString()], so they are
      modelled by their string form; whether a string of a request casts to
      an ObjectId is decided by the driver, and is a parameter ([is_oid]) of
      the handlers that query with such a string;
    - [Date] values are compared through their millisecond time stamp, an
      integer ([Z]);
    - marks, scores, total marks and percentages are JavaScript numbers:
      IEEE 754 binary64 values with the arithmetic of the standard
      (round to nearest, ties to even); question indices, selected options
      and durations are integers;
    - strings are sequences of bytes, UTF-8 for what is not ASCII;
    - a collection of the document store is a finite map from ids to
      documents; [await doc.save()] validates what the handler has set,
      writes the document back, stamps [updatedAt] (schema option
      [timestamps: true]) and increments the version key [__v]; a rejected
      validation or cast throws, the [catch] block of the handler answers
      500 and nothing is written;
    - request bodies are well typed: [answers] is an array of objects with
      two integer fields, and so on;
    - a handler takes the clock readings it makes ([now], the [new Date()] of
      its body, and [ts], the time of its write) and the collections it
      reads, and returns the new collection and the HTTP response. *)

From Stdlib Require Import ZArith.
From Stdlib Require Import Floats.SpecFloat.
From stdpp Require Import base decidable option list gmap strings sorting.

Local Open Scope string_scope.
Local Open Scope list_scope.
Local Open Scope Z_scope.

(** ** JavaScript numbers *)

(** A number is a binary64 value; the operations are those of IEEE 754 for
    53 bits of precision and exponents up to 1024. *)
Definition number : Type := spec_float.

(** The number an integer literal denotes. *)
Definition num (n : Z) : number := binary_normalize 53 1024 n 0 false.

Definition js_add (x y : number) : number := SFadd 53 1024 x y.
Definition js_mul (x y : number) : number := SFmul 53 1024 x y.
Definition js_div (x y : number) : number := SFdiv 53 1024 x y.

(** [x <= y], false when either is NaN. *)
Definition js_le (x y : number) : bool := SFleb x y.

Definition is_nan (x : number) : bool :=
  match x with S754_nan => true | _ => false end.

(** [arr[i]] for a numeric index: [undefined] (here [None]) outside the
    array, in particular for every negative index. *)
Definition js_index {A : Type} (arr : list A) (i : Z) : option A :=
  if decide (0 <= i) then arr !! Z.to_nat i else None.

(** ** Data model (models/Quiz.js) *)

Record question : Type := mkQuestion {
  question_id : string;
  questionText : string;
  options : list string;
  correctAnswer : Z;
  marks : number
}.

Record answer : Type := mkAnswer {
  questionIndex : Z;
  selectedOption : Z
}.

Inductive attemptStatus : Type := InProgress | Completed.

Record attempt : Type := mkAttempt {
  student : string;
  answers : list answer;
  score : option number;
  percentage : option number;
  startedAt : option Z;
  submittedAt : option Z;
  status : attemptStatus
}.

(** [version] is the version key [__v] that Mongoose keeps in every
    document. *)
Record quiz : Type := mkQuiz {
  title : string;
  description : option string;
  subject : string;
  teacher : string;
  questions : list question;
  totalMarks : number;
  duration : Z;
  startDate : Z;
  endDate : Z;
  attempts : list attempt;
  isActive : bool;
  createdAt : Z;
  updatedAt : Z;
  version : Z
}.

Global Instance attemptStatus_eq_dec : EqDecision attemptStatus.
Proof. solve_decision. Defined.

(** The authenticated principal, [req.user]. *)
Inductive userRole : Type := Admin | Teacher | Student.

Global Instance userRole_eq_dec : EqDecision userRole.
Proof. solve_decision. Defined.

Record principal : Type := mkPrincipal {
  user_id : string;
  role : userRole
}.

(** ** Responses *)

(** [res.json(body)] answers 200, [res.status(c).json({ message })] answers
    [c]; the 500 answer of a [catch] block carries the error text. *)
Inductive response (A : Type) : Type :=
  | Json (code : Z) (body : A)
  | Message (code : Z) (message : string)
  | ServerError (error : string).
Arguments Json {A} code body.
Arguments Message {A} code message.
Arguments ServerError {A} error.

Definition succeeded {A : Type} (r : response A) : Prop :=
  match r with Json _ _ => True | _ => False end.

Global Instance succeeded_dec {A} (r : response A) : Decision (succeeded r).
Proof. destruct r; simpl; apply _. Defined.

(** The error taxonomy, by the answers the handlers send. *)
Definition QuizNotFound {A} : response A := Message 404 "Quiz not found".
Definition QuizNotAvailable {A} : response A :=
  Message 400 "Quiz is not available at this time".
Definition AlreadyAttempted {A} : response A :=
  Message 400 "You have already attempted this quiz".
Definition NoActiveAttempt {A} : response A :=
  Message 400 "No active quiz attempt found".
Definition Forbidden {A} : response A := Message 403 "Not authorized".

(** The two errors that reach a [catch] block from the store. *)
Definition CastFailed {A} : response A :=
  ServerError "Cast to ObjectId failed".
Definition ValidationFailed {A} : response A :=
  ServerError "Quiz validation failed".

(** ** The collections *)

(** [Model.findById(id)]: the document, [null], or a rejection when [id]
    does not cast to an ObjectId. Documents are stored under ObjectIds, so
    an id under which a document is found has cast. *)
Inductive found (A : Type) : Type :=
  | Found (doc : A)
  | Missing
  | CastError.
Arguments Found {A} doc.
Arguments Missing {A}.
Arguments CastError {A}.

Definition findById {A : Type} (is_oid : string → bool) (id : string)
    (collection : gmap string A) : found A :=
  match collection !! id with
  | Some doc => Found doc
  | None => if is_oid id then Missing else CastError
  end.

(** What [await quiz.save()] does to the document: [updatedAt] is stamped
    with the time of the write and the version key is incremented. *)
Definition touch (ts : Z) (q : quiz) : quiz :=
  mkQuiz (title q) (description q) (subject q) (teacher q) (questions q)
         (totalMarks q) (duration q) (startDate q) (endDate q) (attempts q)
         (isActive q) (createdAt q) ts (version q + 1).

Definition set_attempts (l : list attempt) (q : quiz) : quiz :=
  mkQuiz (title q) (description q) (subject q) (teacher q) (questions q)
         (totalMarks q) (duration q) (startDate q) (endDate q) l
         (isActive q) (createdAt q) (updatedAt q) (version q).

Definition save (id : string) (ts : Z) (q : quiz)
    (quizzes : gmap string quiz) : gmap string quiz :=
  <[id := touch ts q]> quizzes.

(** An instance of the cast for the examples: the 24 hexadecimal digits of
    an ObjectId. *)
Definition is_hex_digit (c : Ascii.ascii) : bool :=
  let n := Ascii.nat_of_ascii c in
  ((48 <=? n) && (n <=? 57) || (65 <=? n) && (n <=? 70)
   || (97 <=? n) && (n <=? 102))%nat.

Definition is_hex24 (s : string) : bool :=
  (String.length s =? 24)%nat
  && forallb is_hex_digit (String.list_ascii_of_string s).

Section Engine.
Variable is_oid : string → bool.

(** ** submitQuiz *)

(** The body of the [answers.forEach] loop: one answer against the running
    score. *)
Definition score_step (qs : list question) (score : number) (a : answer)
    : number :=
  match js_index qs (questionIndex a) with
  | Some question =>
      if decide (correctAnswer question = selectedOption a)
      then js_add score (marks question)
      else score
  | None => score
  end.

(** [let score = 0; answers.forEach(...)]. *)
Definition calculate_score (qs : list question) (ans : list answer) : number :=
  foldl (score_step qs) (num 0) ans.

(** [(score / quiz.totalMarks) * 100]. *)
Definition calculate_percentage (score total : number) : number :=
  js_mul (js_div score total) (num 100).

Record submitResult : Type := mkSubmitResult {
  sr_message : string;
  sr_score : number;
  sr_totalMarks : number;
  sr_percentage : number
}.

(** The predicate of [quiz.attempts.find] in submitQuiz. *)
Definition active_attempt_of (uid : string) (a : attempt) : Prop :=
  student a = uid ∧ status a = InProgress.

Global Instance active_attempt_of_dec uid a : Decision (active_attempt_of uid a).
Proof. unfold active_attempt_of; apply _. Defined.

(** The five assignments to the attempt found. *)
Definition complete_attempt (ans : list answer) (sc : number) (pct : number)
    (now : Z) (a : attempt) : attempt :=
  mkAttempt (student a) ans (Some sc) (Some pct) (startedAt a) (Some now)
            Completed.

(** The schema types [score] and [percentage] as [Number]: NaN does not
    cast, and the save that follows is rejected. *)
Definition casts (sc pct : number) : bool :=
  negb (is_nan sc) && negb (is_nan pct).

(** [now] is the [new Date()] of the handler, [ts] the time of the write. *)
Definition submitQuiz (now ts : Z) (id : string) (user : principal)
    (body : list answer) (quizzes : gmap string quiz)
    : gmap string quiz * response submitResult :=
  match findById is_oid id quizzes with
  | CastError => (quizzes, CastFailed)
  | Missing => (quizzes, QuizNotFound)
  | Found quiz =>
      match list_find (active_attempt_of (user_id user)) (attempts quiz) with
      | None => (quizzes, NoActiveAttempt)
      | Some (i, attempt) =>
          let score := calculate_score (questions quiz) body in
          let percentage := calculate_percentage score (totalMarks quiz) in
          let attempt' := complete_attempt body score percentage now attempt in
          let quiz' := set_attempts (<[i := attempt']> (attempts quiz)) quiz in
          if casts score percentage then
            (save id ts quiz' quizzes,
             Json 200 (mkSubmitResult "Quiz submitted successfully" score
                                      (totalMarks quiz) percentage))
          else (quizzes, ValidationFailed)
      end
  end.

(** ** startQuiz *)

(** What a question keeps in the answer of startQuiz: the object literal
    [{ _id, questionText, options, marks }]. *)
Record studentQuestion : Type := mkStudentQuestion {
  sq_id : string;
  sq_questionText : string;
  sq_options : list string;
  sq_marks : number
}.

Definition strip (q : question) : studentQuestion :=
  mkStudentQuestion (question_id q) (questionText q) (options q) (marks q).

(** [quiz.toObject()] with its [questions] replaced. *)
Record quizData : Type := mkQuizData {
  qd_id : string;
  qd_title : string;
  qd_description : option string;
  qd_subject : string;
  qd_teacher : string;
  qd_questions : list studentQuestion;
  qd_totalMarks : number;
  qd_duration : Z;
  qd_startDate : Z;
  qd_endDate : Z;
  qd_attempts : list attempt;
  qd_isActive : bool;
  qd_createdAt : Z;
  qd_updatedAt : Z;
  qd_version : Z
}.

Definition quizData_of (id : string) (q : quiz) : quizData :=
  mkQuizData id (title q) (description q) (subject q) (teacher q)
             (strip <$> questions q) (totalMarks q) (duration q)
             (startDate q) (endDate q) (attempts q) (isActive q)
             (createdAt q) (updatedAt q) (version q).

(** The predicate of [quiz.attempts.find] in startQuiz. *)
Definition attempt_of (uid : string) (a : attempt) : Prop := student a = uid.

Global Instance attempt_of_dec uid a : Decision (attempt_of uid a).
Proof. unfold attempt_of; apply _. Defined.

(** The object pushed on [quiz.attempts]; the fields left out take the
    schema's defaults. *)
Definition new_attempt (uid : string) (now : Z) : attempt :=
  mkAttempt uid [] None None (Some now) None InProgress.

Definition push_attempt (uid : string) (now : Z) (q : quiz) : quiz :=
  set_attempts (attempts q ++ [new_attempt uid now]) q.

Definition startQuiz (now ts : Z) (id : string) (user : principal)
    (quizzes : gmap string quiz) : gmap string quiz * response quizData :=
  match findById is_oid id quizzes with
  | CastError => (quizzes, CastFailed)
  | Missing => (quizzes, QuizNotFound)
  | Found quiz =>
      if bool_decide (now < startDate quiz) || bool_decide (now > endDate quiz)
      then (quizzes, QuizNotAvailable)
      else
        match list_find (attempt_of (user_id user)) (attempts quiz) with
        | Some _ => (quizzes, AlreadyAttempted)
        | None =>
            let quiz' := push_attempt (user_id user) now quiz in
            (save id ts quiz' quizzes,
             Json 200 (quizData_of id (touch ts quiz')))
        end
  end.

(** ** getQuizResults *)

(** The User model lives in another module; of a user document only the two
    fields selected by [populate('attempts.student', 'name enrollmentNumber')]
    are kept. *)
Record userDoc : Type := mkUserDoc {
  name : string;
  enrollmentNumber : option string
}.

(** A populated reference: the selected fields and the id, or [null] when
    the user is gone. *)
Definition populate (users : gmap string userDoc) (uid : string)
    : option (string * userDoc) :=
  (λ u, (uid, u)) <$> users !! uid.

Record resultRow : Type := mkResultRow {
  rr_student : option (string * userDoc);
  rr_score : option number;
  rr_percentage : option number;
  rr_submittedAt : option Z
}.

Record quizResults : Type := mkQuizResults {
  quizTitle : string;
  res_totalMarks : number;
  totalStudents : nat;
  results : list resultRow
}.

Definition completed (a : attempt) : Prop := status a = Completed.

Global Instance completed_dec a : Decision (completed a).
Proof. unfold completed; apply _. Defined.

Definition result_row (users : gmap string userDoc) (a : attempt) : resultRow :=
  mkResultRow (populate users (student a)) (score a) (percentage a)
              (submittedAt a).

Definition getQuizResults (id : string) (user : principal)
    (users : gmap string userDoc) (quizzes : gmap string quiz)
    : response quizResults :=
  match findById is_oid id quizzes with
  | CastError => CastFailed
  | Missing => QuizNotFound
  | Found quiz =>
      if bool_decide (teacher quiz ≠ user_id user)
         && bool_decide (role user ≠ Admin)
      then Forbidden
      else
        let results := result_row users <$> filter completed (attempts quiz) in
        Json 200 (mkQuizResults (title quiz) (totalMarks quiz)
                                (length results) results)
  end.

(** ** createQuiz *)

(** A question and a quiz as they arrive in [req.body]. *)
Record questionInput : Type := mkQuestionInput {
  qi_questionText : string;
  qi_options : list string;
  qi_correctAnswer : Z;
  qi_marks : number
}.

Record quizInput : Type := mkQuizInput {
  in_title : string;
  in_description : option string;
  in_subjectId : string;
  in_questions : list questionInput;
  in_duration : Z;
  in_startDate : Z;
  in_endDate : Z
}.

(** The Subject model lives in another module; createQuiz reads only
    [subject.teacher], which subjectController stores as an id or [null]. *)
Record subjectDoc : Type := mkSubjectDoc {
  subject_teacher : option string
}.

(** The schema option [trim: true], that is [String.prototype.trim]: white
    space and line terminators are stripped at both ends. These are the
    characters U+0009 to U+000D, U+0020, U+00A0, U+1680, U+2000 to U+200A,
    U+2028, U+2029, U+202F, U+205F, U+3000 and U+FEFF, here in their UTF-8
    encoding of one, two or three bytes. *)
Definition space2 (a b : Ascii.ascii) : bool :=
  bool_decide (Ascii.nat_of_ascii a = 194%nat ∧ Ascii.nat_of_ascii b = 160%nat).

Definition space3 (a b c : Ascii.ascii) : bool :=
  let x := Ascii.nat_of_ascii a in
  let y := Ascii.nat_of_ascii b in
  let z := Ascii.nat_of_ascii c in
  bool_decide
    ((x = 225 ∧ y = 154 ∧ z = 128)
     ∨ (x = 226 ∧ y = 128
        ∧ (128 ≤ z ≤ 138 ∨ z = 168 ∨ z = 169 ∨ z = 175))
     ∨ (x = 226 ∧ y = 129 ∧ z = 159)
     ∨ (x = 227 ∧ y = 128 ∧ z = 128)
     ∨ (x = 239 ∧ y = 187 ∧ z = 191))%nat.

(** Strips the white space at the head of a string; [sp2] and [sp3]
    recognise the characters of two and of three bytes. *)
Fixpoint strip_spaces (sp2 : Ascii.ascii → Ascii.ascii → bool)
    (sp3 : Ascii.ascii → Ascii.ascii → Ascii.ascii → bool) (s : string)
    : string :=
  match s with
  | String a s1 =>
      if Ascii.is_space a then strip_spaces sp2 sp3 s1
      else
        match s1 with
        | String b s2 =>
            if sp2 a b then strip_spaces sp2 sp3 s2
            else
              match s2 with
              | String c s3 =>
                  if sp3 a b c then strip_spaces sp2 sp3 s3 else s
              | EmptyString => s
              end
        | EmptyString => s
        end
  | EmptyString => EmptyString
  end.

Definition trim_start (s : string) : string := strip_spaces space2 space3 s.

(** At the end of the string the bytes of a character are met in reverse
    order. *)
Definition trim_end (s : string) : string :=
  String.rev (strip_spaces (λ a b, space2 b a) (λ a b c, space3 c b a)
                           (String.rev s)).

Definition trim (s : string) : string := trim_end (trim_start s).

(** The validators that questionSchema declares: [required] on the text and
    on every option (an empty string is not a value), [min: 0] on
    [correctAnswer], [min: 1] on [marks]. *)
Definition valid_question (q : question) : Prop :=
  questionText q ≠ ""
  ∧ Forall (λ o, o ≠ "") (options q)
  ∧ 0 <= correctAnswer q
  ∧ js_le (num 1) (marks q) = true.

Global Instance valid_question_dec q : Decision (valid_question q).
Proof. unfold valid_question; apply _. Defined.

(** The validators that quizSchema declares on the fields createQuiz
    sets, and the cast of [totalMarks] to [Number], which NaN fails. *)
Definition valid_quiz (q : quiz) : Prop :=
  title q ≠ ""
  ∧ Forall valid_question (questions q)
  ∧ is_nan (totalMarks q) = false
  ∧ 1 <= duration q.

Global Instance valid_quiz_dec q : Decision (valid_quiz q).
Proof. unfold valid_quiz; apply _. Defined.

(** [questions.reduce((sum, q) => sum + q.marks, 0)]. *)
Definition sum_marks (qs : list questionInput) : number :=
  foldl (λ sum q, js_add sum (qi_marks q)) (num 0) qs.

(** The document [Quiz.create] builds from the object it is given: strings
    trimmed, a fresh [_id] for every question ([qoid i] for the [i]-th),
    defaults for [attempts] and [isActive], both time stamps set, version
    key 0. *)
Definition new_quiz (now : Z) (qoid : nat → string) (uid : string)
    (body : quizInput) : quiz :=
  mkQuiz (trim (in_title body)) (trim <$> in_description body)
         (in_subjectId body) uid
         (imap (λ i q, mkQuestion (qoid i) (qi_questionText q) (qi_options q)
                                  (qi_correctAnswer q) (qi_marks q))
               (in_questions body))
         (sum_marks (in_questions body)) (in_duration body)
         (in_startDate body) (in_endDate body) [] true now now 0.

(** [oid] is the fresh ObjectId of the quiz. The route installs the
    express-validator chain [quizValidation], but no handler reads its
    result, so the chain rejects nothing; what rejects a body is the schema
    validation inside [Quiz.create], whose error reaches the [catch]
    block. *)
Definition createQuiz (now : Z) (oid : string) (qoid : nat → string)
    (user : principal) (body : quizInput)
    (subjects : gmap string subjectDoc) (quizzes : gmap string quiz)
    : gmap string quiz * response (string * quiz) :=
  match findById is_oid (in_subjectId body) subjects with
  | CastError => (quizzes, CastFailed)
  | Missing => (quizzes, Message 404 "Subject not found")
  | Found subject =>
      match subject_teacher subject with
      | None => (quizzes, ServerError "Cannot read properties of null")
      | Some t =>
          if bool_decide (t ≠ user_id user)
          then (quizzes,
                Message 403 "Not authorized to create quizzes for this subject")
          else
            let quiz := new_quiz now qoid (user_id user) body in
            if bool_decide (valid_quiz quiz) then
              match quizzes !! oid with
              | Some _ => (quizzes, ServerError "duplicate key")
              | None => (<[oid := quiz]> quizzes, Json 201 (oid, quiz))
              end
            else (quizzes, ValidationFailed)
      end
  end.

(** * Notions the properties are stated with *)

(** ** The scoring rule as the specification words it *)

(** The question an answer earns the marks of: the one it points at, when
    that question exists and its correct option is the selected one. *)
Definition matched (qs : list question) (a : answer) : option question :=
  if bool_decide (0 <= questionIndex a < Z.of_nat (length qs)) then
    match qs !! Z.to_nat (questionIndex a) with
    | Some q => if bool_decide (correctAnswer q = selectedOption a)
                then Some q else None
    | None => None
    end
  else None.

(** The score of a submission: the marks of the matched answers, added to 0
    one after the other in the order of the submission. *)
Definition spec_score (qs : list question) (ans : list answer) : number :=
  foldl js_add (num 0) (marks <$> omap (matched qs) ans).

(** ** The attempt state machine *)

(** The data-model invariant: a quiz holds at most one attempt per
    student. *)
Definition one_attempt_per_student (q : quiz) : Prop :=
  NoDup (student <$> attempts q).

Definition store_invariant (quizzes : gmap string quiz) : Prop :=
  ∀ id q, quizzes !! id = Some q → one_attempt_per_student q.

(** The students of the attempts of a quiz, in the order of the list. *)
Definition attempt_students (quizzes : gmap string quiz) (id : string)
    : option (list string) :=
  (λ q, student <$> attempts q) <$> quizzes !! id.

(** The availability window, closed at both ends. *)
Definition in_window (now : Z) (q : quiz) : Prop :=
  startDate q <= now <= endDate q.


(** ** Sequences of startQuiz and submitQuiz requests *)

Inductive request : Type :=
  | StartQuiz (now ts : Z) (id : string) (user : principal)
  | SubmitQuiz (now ts : Z) (id : string) (user : principal)
               (body : list answer).

(** The effect of one request on the collection. *)
Definition handle (r : request) (quizzes : gmap string quiz)
    : gmap string quiz :=
  match r with
  | StartQuiz now ts id user => fst (startQuiz now ts id user quizzes)
  | SubmitQuiz now ts id user body =>
      fst (submitQuiz now ts id user body quizzes)
  end.

(** Requests served one after the other. *)
Definition run (reqs : list request) (quizzes : gmap string quiz)
    : gmap string quiz :=
  foldl (λ st r, handle r st) quizzes reqs.

(** ** What startQuiz discloses *)

(** Two questions, resp. two quizzes, that differ at most in the correct
    options. *)
Definition same_but_correct (a b : question) : Prop :=
  question_id a = question_id b ∧ questionText a = questionText b
  ∧ options a = options b ∧ marks a = marks b.

Definition differ_only_in_correct (a b : quiz) : Prop :=
  title a = title b ∧ description a = description b
  ∧ subject a = subject b ∧ teacher a = teacher b
  ∧ Forall2 same_but_correct (questions a) (questions b)
  ∧ totalMarks a = totalMarks b ∧ duration a = duration b
  ∧ startDate a = startDate b ∧ endDate a = endDate b
  ∧ attempts a = attempts b ∧ isActive a = isActive b
  ∧ createdAt a = createdAt b ∧ updatedAt a = updatedAt b
  ∧ version a = version b.

(** A question of the answer shows the stored question without its correct
    option. *)
Definition shows (sq : studentQuestion) (q : question) : Prop :=
  sq_id sq = question_id q ∧ sq_questionText sq = questionText q
  ∧ sq_options sq = options q ∧ sq_marks sq = marks q.

(** ** Reading the results *)

(** A row of the results shows an attempt: the populated student, the score,
    the percentage and the submission time. *)
Definition row_of (users : gmap string userDoc) (row : resultRow)
    (a : attempt) : Prop :=
  rr_student row = populate users (student a)
  ∧ rr_score row = score a
  ∧ rr_percentage row = percentage a
  ∧ rr_submittedAt row = submittedAt a.

(** ** What a submission changes *)

(** The fields of a quiz that no submission touches. *)
Definition same_definition (a b : quiz) : Prop :=
  title a = title b ∧ description a = description b
  ∧ subject a = subject b ∧ teacher a = teacher b
  ∧ questions a = questions b ∧ totalMarks a = totalMarks b
  ∧ duration a = duration b ∧ startDate a = startDate b
  ∧ endDate a = endDate b ∧ isActive a = isActive b
  ∧ createdAt a = createdAt b.

(** ** startQuiz under concurrent requests *)

(** startQuiz suspends twice, at [await Quiz.findById] and at
    [await quiz.save()]; between the two it runs on its own copy of the
    document. Another request can be served at either point. *)

Inductive startState : Type :=
  | Waiting                         (* findById has not resolved yet *)
  | Loaded (found : option quiz)    (* the handler holds its copy *)
  | Answered (r : response quizData).

Record startCall : Type := mkStartCall {
  call_now : Z;
  call_ts : Z;
  call_id : string;
  call_user : principal
}.

(** From the resolution of findById to the call of save: the two checks and
    the push, on the copy. *)
Definition start_check (now : Z) (user : principal) (found : option quiz)
    : response quizData + quiz :=
  match found with
  | None => inl QuizNotFound
  | Some quiz =>
      if bool_decide (now < startDate quiz) || bool_decide (now > endDate quiz)
      then inl QuizNotAvailable
      else
        match list_find (attempt_of (user_id user)) (attempts quiz) with
        | Some _ => inl AlreadyAttempted
        | None => inr (push_attempt (user_id user) now quiz)
        end
  end.

(** Two readings of what [save] sends for a copy whose only change is the
    pushed attempt: the whole copy, or the push alone, applied to the stored
    document. *)
Definition write_back : Type :=
  string → Z → quiz → attempt → gmap string quiz → gmap string quiz.

Definition save_document : write_back :=
  λ id ts copy _ quizzes, save id ts copy quizzes.

Definition save_push : write_back :=
  λ id ts _ pushed quizzes,
    alter (λ q, touch ts (set_attempts (attempts q ++ [pushed]) q)) id quizzes.

Section Interleaving.
Variable write : write_back.

(** One call runs up to its next suspension point. *)
Definition advance (c : startCall) (s : startState)
    (quizzes : gmap string quiz) : gmap string quiz * startState :=
  match s with
  | Waiting =>
      match findById is_oid (call_id c) quizzes with
      | CastError => (quizzes, Answered CastFailed)
      | Missing => (quizzes, Loaded None)
      | Found quiz => (quizzes, Loaded (Some quiz))
      end
  | Loaded found =>
      match start_check (call_now c) (call_user c) found with
      | inl r => (quizzes, Answered r)
      | inr copy =>
          (write (call_id c) (call_ts c) copy
                 (new_attempt (user_id (call_user c)) (call_now c)) quizzes,
           Answered (Json 200 (quizData_of (call_id c)
                                           (touch (call_ts c) copy))))
      end
  | Answered r => (quizzes, Answered r)
  end.

(** Two calls in flight and a schedule that says whose turn it is. *)
Inductive turn : Type := First | Second.

Record flight : Type := mkFlight {
  store : gmap string quiz;
  first : startState;
  second : startState
}.

Definition step (c1 c2 : startCall) (f : flight) (t : turn) : flight :=
  match t with
  | First =>
      let '(quizzes, s) := advance c1 (first f) (store f) in
      mkFlight quizzes s (second f)
  | Second =>
      let '(quizzes, s) := advance c2 (second f) (store f) in
      mkFlight quizzes (first f) s
  end.

Definition schedule (c1 c2 : startCall) (ts : list turn)
    (quizzes : gmap string quiz) : flight :=
  foldl (step c1 c2) (mkFlight quizzes Waiting Waiting) ts.
End Interleaving.

(** * A worked example *)

(** The ids of the examples: ObjectIds, 24 hexadecimal digits each. *)
Definition quiz0 : string := "650a1f0e9b3c4d5e6f708190".
Definition quiz1 : string := "650a1f0e9b3c4d5e6f708191".
Definition quiz2 : string := "650a1f0e9b3c4d5e6f708192".
Definition quiz7 : string := "650a1f0e9b3c4d5e6f708197".
Definition subject1 : string := "650a1f0e9b3c4d5e6f7081a1".

Definition student1 : principal := mkPrincipal "student1" Student.
Definition student2 : principal := mkPrincipal "student2" Student.
Definition teacher1 : principal := mkPrincipal "teacher1" Teacher.

(** The quiz of the worked example: two questions worth 5 and 3 marks whose
    correct options are 1 and 0, open from 1000 to 2000, and one student who
    has started. *)
Definition example_questions : list question :=
  [ mkQuestion "q0" "First question" ["a"; "b"] 1 (num 5);
    mkQuestion "q1" "Second question" ["a"; "b"] 0 (num 3) ].

Definition example_quiz : quiz :=
  mkQuiz "Example" None subject1 "teacher1" example_questions (num 8) 30
         1000 2000 [new_attempt "student1" 1500] true 900 1500 1.

Definition example_store : gmap string quiz := {[ quiz1 := example_quiz ]}.

(** The example quiz with the other option marked correct in both
    questions. *)
Definition example_quiz_flipped : quiz :=
  mkQuiz "Example" None subject1 "teacher1"
         [ mkQuestion "q0" "First question" ["a"; "b"] 0 (num 5);
           mkQuestion "q1" "Second question" ["a"; "b"] 1 (num 3) ]
         (num 8) 30 1000 2000 [new_attempt "student1" 1500] true 900 1500 1.

(** The example quiz after student1 has submitted and student2 has
    started. *)
Definition example_after : gmap string quiz :=
  run [ SubmitQuiz 1600 1601 quiz1 student1 [mkAnswer 0 1; mkAnswer 1 1];
        StartQuiz 1700 1701 quiz1 student2 ]
      example_store.

Definition example_users : gmap string userDoc :=
  {[ "student1" := mkUserDoc "Student User" (Some "ENR001") ]}.

Definition example_subjects : gmap string subjectDoc :=
  {[ subject1 := mkSubjectDoc (Some "teacher1") ]}.

Definition example_body (qs : list questionInput) : quizInput :=
  mkQuizInput "Midterm" None subject1 qs 30 1000 2000.

(** A request with a question without options and a question whose correct
    option index lies beyond its options. *)
Definition unanswerable_body : quizInput :=
  example_body [ mkQuestionInput "Which?" [] 0 (num 2);
                 mkQuestionInput "Why?" ["a"; "b"] 7 (num 3) ].

(** Two calls by student2 on the example quiz, inside its window. *)
Definition call1 : startCall := mkStartCall 1200 1201 quiz1 student2.
Definition call2 : startCall := mkStartCall 1202 1203 quiz1 student2.

(** * The listings and the report *)

(** ** getQuizzesBySubject *)

(** A question of a listing: [select('-questions.correctAnswer')] leaves the
    field out, [select('')] keeps it. *)
Record listedQuestion : Type := mkListedQuestion {
  lq_id : string;
  lq_questionText : string;
  lq_options : list string;
  lq_correctAnswer : option Z;
  lq_marks : number
}.

Definition select_question (hide : bool) (q : question) : listedQuestion :=
  mkListedQuestion (question_id q) (questionText q) (options q)
                   (if hide then None else Some (correctAnswer q)) (marks q).

(** A quiz of a listing; [S] is what stands for the subject, an id or a
    populated reference. The teacher is populated with its name. *)
Record listedQuiz (S : Type) : Type := mkListedQuiz {
  lz_id : string;
  lz_title : string;
  lz_description : option string;
  lz_subject : S;
  lz_teacher : option (string * string);
  lz_questions : list listedQuestion;
  lz_totalMarks : number;
  lz_duration : Z;
  lz_startDate : Z;
  lz_endDate : Z;
  lz_attempts : list attempt;
  lz_isActive : bool;
  lz_createdAt : Z;
  lz_updatedAt : Z;
  lz_version : Z
}.
Global Arguments mkListedQuiz {S}.
Global Arguments lz_id {S}.
Global Arguments lz_title {S}.
Global Arguments lz_description {S}.
Global Arguments lz_subject {S}.
Global Arguments lz_teacher {S}.
Global Arguments lz_questions {S}.
Global Arguments lz_totalMarks {S}.
Global Arguments lz_duration {S}.
Global Arguments lz_startDate {S}.
Global Arguments lz_endDate {S}.
Global Arguments lz_attempts {S}.
Global Arguments lz_isActive {S}.
Global Arguments lz_createdAt {S}.
Global Arguments lz_updatedAt {S}.
Global Arguments lz_version {S}.

(** [populate('teacher', 'name')]. *)
Definition populate_name (users : gmap string userDoc) (uid : string)
    : option (string * string) :=
  (λ u, (uid, name u)) <$> users !! uid.

Definition listed {S : Type} (hide : bool) (users : gmap string userDoc)
    (sub : string → S) (d : string * quiz) : listedQuiz S :=
  mkListedQuiz d.1 (title d.2) (description d.2) (sub (subject d.2))
               (populate_name users (teacher d.2))
               (select_question hide <$> questions d.2) (totalMarks d.2)
               (duration d.2) (startDate d.2) (endDate d.2) (attempts d.2)
               (isActive d.2) (createdAt d.2) (updatedAt d.2) (version d.2).

(** The filter [{ subject, isActive: true, endDate: { $gte: now } }]; its
    [subject] is a string of the request, which the query casts. *)
Definition open_in_subject (now : Z) (subjectId : string)
    (d : string * quiz) : Prop :=
  subject d.2 = subjectId ∧ isActive d.2 = true ∧ now <= endDate d.2.

Global Instance open_in_subject_dec now subjectId d :
  Decision (open_in_subject now subjectId d).
Proof. unfold open_in_subject; apply _. Defined.

(** [sort('startDate')]: ascending. *)
Definition by_startDate (a b : string * quiz) : Prop :=
  startDate a.2 <= startDate b.2.

Global Instance by_startDate_dec a b : Decision (by_startDate a b).
Proof. unfold by_startDate; apply _. Defined.

Definition getQuizzesBySubject (now : Z) (subjectId : string)
    (user : principal) (users : gmap string userDoc)
    (quizzes : gmap string quiz) : response (list (listedQuiz string)) :=
  if is_oid subjectId then
    let found := filter (open_in_subject now subjectId) (map_to_list quizzes) in
    Json 200 (listed (bool_decide (role user = Student)) users id
                <$> merge_sort by_startDate found)
  else CastFailed.

(** ** getStudentQuizzes *)

(** Of the User and Subject models, which live in other modules, the fields
    the handler reads: the student's department reference and semester, the
    subject's department, semester, name and code. *)
Record studentDoc : Type := mkStudentDoc {
  sd_department : option string;
  sd_semester : Z
}.

Record subjectInfo : Type := mkSubjectInfo {
  si_name : string;
  si_code : string;
  si_department : string;
  si_semester : Z
}.

(** [populate('department')]: the reference survives when the department
    exists. *)
Definition populated_department (departments : gset string)
    (student : studentDoc) : option string :=
  d ← sd_department student;
  if bool_decide (d ∈ departments) then Some d else None.

(** [populate('subject', 'name code')]. *)
Definition populate_subject (subjects : gmap string subjectInfo)
    (sid : string) : option (string * (string * string)) :=
  (λ s, (sid, (si_name s, si_code s))) <$> subjects !! sid.

Definition taught_to (dept : string) (semester : Z)
    (s : string * subjectInfo) : Prop :=
  si_department s.2 = dept ∧ si_semester s.2 = semester.

Global Instance taught_to_dec dept semester s :
  Decision (taught_to dept semester s).
Proof. unfold taught_to; apply _. Defined.

(** The filter [{ subject: { $in: subjectIds }, isActive: true }]. *)
Definition active_in (subjectIds : list string) (d : string * quiz) : Prop :=
  subject d.2 ∈ subjectIds ∧ isActive d.2 = true.

Global Instance active_in_dec subjectIds d : Decision (active_in subjectIds d).
Proof. unfold active_in; apply _. Defined.

(** [sort('-createdAt')]: descending. *)
Definition by_createdAt_desc (a b : string * quiz) : Prop :=
  createdAt b.2 <= createdAt a.2.

Global Instance by_createdAt_desc_dec a b : Decision (by_createdAt_desc a b).
Proof. unfold by_createdAt_desc; apply _. Defined.

Definition getStudentQuizzes (user : principal)
    (students : gmap string studentDoc) (departments : gset string)
    (subjects : gmap string subjectInfo) (users : gmap string userDoc)
    (quizzes : gmap string quiz)
    : response (list (listedQuiz (option (string * (string * string))))) :=
  match students !! user_id user with
  | None => ServerError "Cannot read properties of null"
  | Some student =>
      match populated_department departments student with
      | None => Json 200 []
      | Some dept =>
          let subjectIds :=
            (filter (taught_to dept (sd_semester student))
                    (map_to_list subjects)).*1 in
          let found := filter (active_in subjectIds) (map_to_list quizzes) in
          Json 200 (listed true users (populate_subject subjects)
                      <$> merge_sort by_createdAt_desc found)
      end
  end.

(** ** The quiz part of getStudentPerformance (reportController) *)

(** A property read off a document: unset, [null], or a value. *)
Inductive jsval (A : Type) : Type :=
  | JsUndefined
  | JsNull
  | JsValue (a : A).
Global Arguments JsUndefined {A}.
Global Arguments JsNull {A}.
Global Arguments JsValue {A} a.

(** [attempt?.field]: unset when there is no attempt or the field was never
    written. *)
Definition optional_field {A : Type} (f : attempt → option A)
    (a : option attempt) : jsval A :=
  match a ≫= f with
  | Some x => JsValue x
  | None => JsUndefined
  end.

Record quizStat : Type := mkQuizStat {
  qs_quizTitle : string;
  qs_subject : option (string * (string * string));
  qs_score : jsval number;
  qs_totalMarks : number;
  qs_percentage : jsval number;
  qs_submittedAt : jsval Z
}.

(** The filter [{ 'attempts.student': studentId }]. *)
Definition attempted_by (studentId : string) (d : string * quiz) : Prop :=
  Exists (attempt_of studentId) (attempts d.2).

Global Instance attempted_by_dec studentId d : Decision (attempted_by studentId d).
Proof. unfold attempted_by; apply _. Defined.

Definition quizStats (studentId : string) (subjects : gmap string subjectInfo)
    (quizzes : gmap string quiz) : list quizStat :=
  (λ d : string * quiz,
     let attempt := snd <$> list_find (attempt_of studentId) (attempts d.2) in
     mkQuizStat (title d.2) (populate_subject subjects (subject d.2))
                (optional_field score attempt) (totalMarks d.2)
                (optional_field percentage attempt)
                (optional_field submittedAt attempt))
  <$> filter (attempted_by studentId) (map_to_list quizzes).

(** [q.percentage !== null]. *)
Definition not_null {A : Type} (v : jsval A) : Prop :=
  match v with JsNull => False | _ => True end.

Global Instance not_null_dec {A} (v : jsval A) : Decision (not_null v).
Proof. destruct v; simpl; apply _. Defined.

Definition completedQuizzes (stats : list quizStat) : list quizStat :=
  filter (λ q, not_null (qs_percentage q)) stats.

(** [statistics.totalQuizzes]. *)
Definition totalQuizzes (studentId : string)
    (subjects : gmap string subjectInfo) (quizzes : gmap string quiz) : nat :=
  length (completedQuizzes (quizStats studentId subjects quizzes)).

(** * Further notions *)

(** The marks a quiz can give: those of its questions, added to 0 one after
    the other in the order of the questions. *)
Definition total_of (qs : list question) : number :=
  foldl (λ sum q, js_add sum (marks q)) (num 0) qs.

(** The numbers that are neither NaN nor negative: 0, the positive finite
    numbers and the positive infinity. *)
Definition nonneg (x : number) : Prop :=
  match x with
  | S754_zero s | S754_infinity s | S754_finite s _ _ => s = false
  | S754_nan => False
  end.

(** The submission that answers every question once and correctly. *)
Definition perfect_answers (qs : list question) : list answer :=
  imap (λ i q, mkAnswer (Z.of_nat i) (correctAnswer q)) qs.

(** What the schema accepts of a question of a request. *)
Definition valid_input (qi : questionInput) : Prop :=
  qi_questionText qi ≠ ""
  ∧ Forall (λ o, o ≠ "") (qi_options qi)
  ∧ 0 <= qi_correctAnswer qi
  ∧ js_le (num 1) (qi_marks qi) = true.

(** How an attempt may differ after later requests: its student and start
    time are kept, a completed attempt is kept whole, and an attempt still
    in progress has not been written. *)
Definition attempt_evolves (a a' : attempt) : Prop :=
  student a' = student a ∧ startedAt a' = startedAt a
  ∧ (status a = Completed → a' = a)
  ∧ (status a' = InProgress → a' = a).

(** How a quiz may differ after later requests: same definition, and every
    attempt still at its place. *)
Definition quiz_evolves (q q' : quiz) : Prop :=
  same_definition q' q
  ∧ ∀ j a, attempts q !! j = Some a →
           ∃ a', attempts q' !! j = Some a' ∧ attempt_evolves a a'.

(** A request that passes the validation. *)
Definition example_request : quizInput :=
  example_body [ mkQuestionInput "Which?" ["a"; "b"] 1 (num 2);
                 mkQuestionInput "Why?" ["c"] 0 (num 3) ].


(** The quiz of the rounding example: 7 marks out of 25 are 28 percent. *)
Definition rounding_quiz : quiz :=
  mkQuiz "Rounding" None subject1 "teacher1"
         [ mkQuestion "q0" "First question" ["a"; "b"] 0 (num 7);
           mkQuestion "q1" "Second question" ["a"; "b"] 0 (num 18) ]
         (num 25) 30 1000 2000 [new_attempt "student1" 1500] true 900 1500 1.

Definition rounding_store : gmap string quiz := {[ quiz7 := rounding_quiz ]}.

(** Three questions of 2^53, 1 and 1 marks, each with option 0 correct. *)
Definition large_questions : list question :=
  [ mkQuestion "q0" "First question" ["a"; "b"] 0 (num (2 ^ 53));
    mkQuestion "q1" "Second question" ["a"; "b"] 0 (num 1);
    mkQuestion "q2" "Third question" ["a"; "b"] 0 (num 1) ].


Definition large_reordered : list answer :=
  [mkAnswer 1 0; mkAnswer 2 0; mkAnswer 0 0].

(** A quiz without questions, as createQuiz stores it, started by
    student1. *)
Definition empty_request : quizInput := example_body [].

Definition zero_store : gmap string quiz :=
  fst (startQuiz 1200 1201 quiz0 student1
         (fst (createQuiz 900 quiz0 (λ _, "q") teacher1 empty_request
                          example_subjects ∅))).

(** * Properties *)

(** ** The collections *)

Lemma findById_Some {A} (id : string) (collection : gmap string A) (doc : A) :
  collection !! id = Some doc → findById is_oid id collection = Found doc.
Proof. intros H. unfold findById. by rewrite H. Qed.

Lemma findById_Found {A} (id : string) (collection : gmap string A) (doc : A) :
  findById is_oid id collection = Found doc → collection !! id = Some doc.
Proof.
  unfold findById. destruct (collection !! id); [congruence|].
  by destruct (is_oid id).
Qed.

(** ** Scoring *)

Lemma num_0 : num 0 = S754_zero false.
Proof. reflexivity. Qed.




Section Scoring.
Variable qs : list question.

Lemma js_index_range (i : Z) :
  is_Some (js_index qs i) ↔ 0 <= i < Z.of_nat (length qs).
Proof.
  unfold js_index. destruct (decide (0 <= i)) as [Hi|Hi].
  - rewrite lookup_lt_is_Some. lia.
  - split; [intros [? ?]; discriminate | lia].
Qed.

Lemma matched_index (a : answer) :
  matched qs a
  = q ← js_index qs (questionIndex a);
    if decide (correctAnswer q = selectedOption a) then Some q else None.
Proof.
  unfold matched.
  destruct (js_index qs (questionIndex a)) as [q|] eqn:Hq; simpl.
  - assert (Hr : 0 <= questionIndex a < Z.of_nat (length qs))
      by (apply js_index_range; eauto).
    rewrite bool_decide_eq_true_2 by exact Hr.
    unfold js_index in Hq. rewrite decide_True in Hq by lia. rewrite Hq.
    destruct (decide (correctAnswer q = selectedOption a)).
    + by rewrite bool_decide_eq_true_2.
    + by rewrite bool_decide_eq_false_2.
  - case_bool_decide as Hr; [|done].
    apply js_index_range in Hr. rewrite Hq in Hr. by destruct Hr.
Qed.

Lemma score_step_matched (s : number) (a : answer) :
  score_step qs s a
  = match matched qs a with Some q => js_add s (marks q) | None => s end.
Proof.
  rewrite matched_index. unfold score_step.
  destruct (js_index qs (questionIndex a)) as [q|]; simpl; [|done].
  by destruct (decide (correctAnswer q = selectedOption a)).
Qed.

Lemma foldl_score_step (ans : list answer) (s : number) :
  foldl (score_step qs) s ans
  = foldl js_add s (marks <$> omap (matched qs) ans).
Proof.
  revert s. induction ans as [|a rest IH]; intros s; [done|].
  simpl. rewrite IH, score_step_matched.
  by destruct (matched qs a).
Qed.

Lemma calculate_score_spec (ans : list answer) :
  calculate_score qs ans = spec_score qs ans.
Proof. apply foldl_score_step. Qed.

Lemma calculate_score_snoc (ans : list answer) (a : answer) :
  calculate_score qs (ans ++ [a])
  = match matched qs a with
    | Some q => js_add (calculate_score qs ans) (marks q)
    | None => calculate_score qs ans
    end.
Proof.
  unfold calculate_score. rewrite foldl_snoc. apply score_step_matched.
Qed.
End Scoring.

Lemma submitQuiz_found now ts id user body quizzes q i a :
  quizzes !! id = Some q →
  list_find (active_attempt_of (user_id user)) (attempts q) = Some (i, a) →
  submitQuiz now ts id user body quizzes
  = if casts (calculate_score (questions q) body)
             (calculate_percentage (calculate_score (questions q) body)
                                   (totalMarks q))
    then
      (save id ts
         (set_attempts
            (<[i := complete_attempt body (calculate_score (questions q) body)
                      (calculate_percentage
                         (calculate_score (questions q) body) (totalMarks q))
                      now a]> (attempts q))
            q) quizzes,
       Json 200 (mkSubmitResult "Quiz submitted successfully"
                   (calculate_score (questions q) body) (totalMarks q)
                   (calculate_percentage (calculate_score (questions q) body)
                                         (totalMarks q))))
    else (quizzes, ValidationFailed).
Proof.
  intros Hq Ha. unfold submitQuiz.
  rewrite (findById_Some _ _ _ Hq), Ha. reflexivity.
Qed.

Lemma submitQuiz_active now ts id user body quizzes q i a :
  quizzes !! id = Some q →
  list_find (active_attempt_of (user_id user)) (attempts q) = Some (i, a) →
  casts (calculate_score (questions q) body)
        (calculate_percentage (calculate_score (questions q) body)
                              (totalMarks q)) = true →
  submitQuiz now ts id user body quizzes
  = (save id ts
       (set_attempts
          (<[i := complete_attempt body (calculate_score (questions q) body)
                    (calculate_percentage (calculate_score (questions q) body)
                                          (totalMarks q)) now a]> (attempts q))
          q) quizzes,
     Json 200 (mkSubmitResult "Quiz submitted successfully"
                 (calculate_score (questions q) body) (totalMarks q)
                 (calculate_percentage (calculate_score (questions q) body)
                                       (totalMarks q)))).
Proof.
  intros Hq Ha Hc. by rewrite (submitQuiz_found _ _ _ _ _ _ _ _ _ Hq Ha), Hc.
Qed.

Lemma submitQuiz_refused now ts id user body quizzes q i a :
  quizzes !! id = Some q →
  list_find (active_attempt_of (user_id user)) (attempts q) = Some (i, a) →
  casts (calculate_score (questions q) body)
        (calculate_percentage (calculate_score (questions q) body)
                              (totalMarks q)) = false →
  submitQuiz now ts id user body quizzes = (quizzes, ValidationFailed).
Proof.
  intros Hq Ha Hc. by rewrite (submitQuiz_found _ _ _ _ _ _ _ _ _ Hq Ha), Hc.
Qed.


Lemma casts_true (sc pct : number) :
  casts sc pct = true ↔ is_nan sc = false ∧ is_nan pct = false.
Proof.
  unfold casts. rewrite andb_true_iff, !negb_true_iff. done.
Qed.

(** C1, as the code has it. submitQuiz scores a submission answer by answer,
    from 0 and in IEEE double arithmetic: an answer adds the marks of the
    question it points at when that question exists and its correct option
    is the selected one, and leaves the score as it is otherwise (index out
    of range, or another option selected); answers are never deduplicated.
    The percentage is [(score / totalMarks) * 100], also in doubles, and
    when neither is NaN the handler answers with both. On the example quiz
    the answers [{0,1},{1,0}] score 8 (100 percent) and [{0,0},{1,1}] score
    0 (0 percent). *)
Theorem submitQuiz_scoring now ts id user body quizzes q :
  quizzes !! id = Some q →
  (∃ a, a ∈ attempts q ∧ active_attempt_of (user_id user) a) →
  is_nan (spec_score (questions q) body) = false →
  is_nan (js_mul (js_div (spec_score (questions q) body) (totalMarks q))
                 (num 100)) = false →
  (* the answer of the handler *)
  snd (submitQuiz now ts id user body quizzes)
  = Json 200 (mkSubmitResult "Quiz submitted successfully"
                (spec_score (questions q) body) (totalMarks q)
                (js_mul (js_div (spec_score (questions q) body) (totalMarks q))
                        (num 100)))
  (* the running score, one answer after the other *)
  ∧ calculate_score (questions q) [] = num 0
  (* a matched answer adds the marks of its question *)
  ∧ (∀ ans a qn, js_index (questions q) (questionIndex a) = Some qn →
                 correctAnswer qn = selectedOption a →
                 calculate_score (questions q) (ans ++ [a])
                 = js_add (calculate_score (questions q) ans) (marks qn))
  (* an unmatched or out-of-range answer adds nothing *)
  ∧ (∀ ans a qn, js_index (questions q) (questionIndex a) = Some qn →
                 correctAnswer qn ≠ selectedOption a →
                 calculate_score (questions q) (ans ++ [a])
                 = calculate_score (questions q) ans)
  ∧ (∀ ans a, js_index (questions q) (questionIndex a) = None →
              calculate_score (questions q) (ans ++ [a])
              = calculate_score (questions q) ans)
  (* duplicates count again *)
  ∧ (∀ a qn, js_index (questions q) (questionIndex a) = Some qn →
             correctAnswer qn = selectedOption a →
             calculate_score (questions q) [a; a]
             = js_add (js_add (num 0) (marks qn)) (marks qn))
  (* the worked example *)
  ∧ snd (submitQuiz now ts quiz1 student1 [mkAnswer 0 1; mkAnswer 1 0]
                    example_store)
    = Json 200 (mkSubmitResult "Quiz submitted successfully" (num 8) (num 8)
                               (num 100))
  ∧ snd (submitQuiz now ts quiz1 student1 [mkAnswer 0 0; mkAnswer 1 1]
                    example_store)
    = Json 200 (mkSubmitResult "Quiz submitted successfully" (num 0) (num 8)
                               (num 0)).
Proof.
  intros Hq (a0 & Hin & Hact) Hsc Hpct.
  destruct (list_find_elem_of (active_attempt_of (user_id user)) _ _ Hin Hact)
    as [[i a] Hfind].
  assert (Hm : ∀ a, matched (questions q) a
                    = qn ← js_index (questions q) (questionIndex a);
                      if decide (correctAnswer qn = selectedOption a)
                      then Some qn else None)
    by (intros; apply matched_index).
  split_and!.
  - rewrite <- !calculate_score_spec in *.
    rewrite (submitQuiz_active _ _ _ _ _ _ _ _ _ Hq Hfind); [done|].
    by apply casts_true.
  - reflexivity.
  - intros ans a' qn Hi Heq. rewrite calculate_score_snoc, Hm, Hi. simpl.
    by rewrite decide_True.
  - intros ans a' qn Hi Hne. rewrite calculate_score_snoc, Hm, Hi. simpl.
    by rewrite decide_False.
  - intros ans a' Hi. by rewrite calculate_score_snoc, Hm, Hi.
  - intros a' qn Hi Heq.
    change [a'; a'] with ([a'] ++ [a']).
    rewrite calculate_score_snoc, Hm, Hi. simpl. rewrite decide_True by done.
    change [a'] with ([] ++ [a']).
    rewrite calculate_score_snoc, Hm, Hi. simpl. by rewrite decide_True.
  - reflexivity.
  - reflexivity.
Qed.


(** ** Submission and the active attempt *)




(** ** startQuiz, branch by branch *)

Lemma window_check (now : Z) (q : quiz) :
  bool_decide (now < startDate q) || bool_decide (now > endDate q) = false
  ↔ in_window now q.
Proof.
  unfold in_window. rewrite orb_false_iff, !bool_decide_eq_false. lia.
Qed.

Lemma attempt_exists (uid : string) (l : list attempt) :
  (∃ a, a ∈ l ∧ student a = uid) ↔ is_Some (list_find (attempt_of uid) l).
Proof.
  split.
  - intros (a & Hin & Hs). by apply (list_find_elem_of _ _ a).
  - intros [[i a] Hf]. apply list_find_Some in Hf as (Hl & Hs & _).
    exists a. split; [by eapply list_elem_of_lookup_2|done].
Qed.

Lemma no_attempt_not_elem (uid : string) (l : list attempt) :
  list_find (attempt_of uid) l = None ↔ uid ∉ student <$> l.
Proof.
  rewrite list_find_None, Forall_forall, list_elem_of_fmap. split.
  - intros H (a & -> & Hin). by apply (H a).
  - intros H a Hin Ha. apply H. exists a. by rewrite Ha.
Qed.

Lemma startQuiz_unavailable now ts id user quizzes q :
  quizzes !! id = Some q → ¬ in_window now q →
  startQuiz now ts id user quizzes = (quizzes, QuizNotAvailable).
Proof.
  intros Hq Hw. unfold startQuiz. rewrite (findById_Some _ _ _ Hq).
  destruct (_ || _) eqn:Hc; [done|]. by apply window_check in Hc.
Qed.

Lemma startQuiz_attempted now ts id user quizzes q :
  quizzes !! id = Some q → in_window now q →
  is_Some (list_find (attempt_of (user_id user)) (attempts q)) →
  startQuiz now ts id user quizzes = (quizzes, AlreadyAttempted).
Proof.
  intros Hq Hw [x Hx]. unfold startQuiz. rewrite (findById_Some _ _ _ Hq).
  apply window_check in Hw. by rewrite Hw, Hx.
Qed.

Lemma startQuiz_fresh now ts id user quizzes q :
  quizzes !! id = Some q → in_window now q →
  list_find (attempt_of (user_id user)) (attempts q) = None →
  startQuiz now ts id user quizzes
  = (save id ts (push_attempt (user_id user) now q) quizzes,
     Json 200 (quizData_of id (touch ts (push_attempt (user_id user) now q)))).
Proof.
  intros Hq Hw Hx. unfold startQuiz. rewrite (findById_Some _ _ _ Hq).
  apply window_check in Hw. by rewrite Hw, Hx.
Qed.

(** C5. For an existing quiz, startQuiz answers QuizNotAvailable exactly when
    [now < startDate] or [now > endDate]. The window is closed at both ends:
    at [now = startDate] and at [now = endDate] of a window
    [startDate <= endDate] the check passes and a student without an attempt
    is let in. *)
Theorem startQuiz_availability now ts id user quizzes q :
  quizzes !! id = Some q →
  (snd (startQuiz now ts id user quizzes) = QuizNotAvailable
   ↔ now < startDate q ∨ now > endDate q)
  ∧ (startDate q <= endDate q →
     now = startDate q ∨ now = endDate q →
     snd (startQuiz now ts id user quizzes) ≠ QuizNotAvailable)
  ∧ (startDate q <= endDate q →
     now = startDate q ∨ now = endDate q →
     (¬ ∃ a, a ∈ attempts q ∧ student a = user_id user) →
     succeeded (snd (startQuiz now ts id user quizzes))).
Proof.
  intros Hq.
  assert (Hiff : snd (startQuiz now ts id user quizzes) = QuizNotAvailable
                 ↔ now < startDate q ∨ now > endDate q).
  { destruct (decide (in_window now q)) as [Hw|Hw].
    - destruct (list_find (attempt_of (user_id user)) (attempts q)) eqn:Hf.
      + rewrite (startQuiz_attempted _ _ _ _ _ _ Hq Hw) by eauto.
        unfold in_window in Hw. split; [discriminate|lia].
      + rewrite (startQuiz_fresh _ _ _ _ _ _ Hq Hw Hf).
        unfold in_window in Hw. split; [discriminate|lia].
    - rewrite (startQuiz_unavailable _ _ _ _ _ _ Hq Hw).
      unfold in_window in Hw. split; [lia|done]. }
  split_and!; [exact Hiff | |].
  - intros Hord Hb. rewrite Hiff. lia.
  - intros Hord Hb Hno. rewrite attempt_exists in Hno.
    rewrite (startQuiz_fresh _ _ _ _ _ q Hq).
    + exact I.
    + unfold in_window. lia.
    + by apply eq_None_not_Some.
Qed.

(** ** What startQuiz discloses *)

Lemma strip_same_but_correct (l k : list question) :
  Forall2 same_but_correct l k → strip <$> l = strip <$> k.
Proof.
  induction 1 as [|a b l k (Hi & Ht & Ho & Hm) _ IH]; [done|].
  rewrite !fmap_cons, IH. f_equal. unfold strip. by rewrite Hi, Ht, Ho, Hm.
Qed.

Lemma strip_shows (l : list question) : Forall2 shows (strip <$> l) l.
Proof. induction l; constructor; [by repeat split|done]. Qed.

(** C4. The answer of startQuiz carries, for every question, its id, text,
    options and marks and nothing else, whoever asks: two quizzes that differ
    only in the correct options of their questions get the same answer. *)
Theorem startQuiz_hides_correct now ts id user quizzes q1 q2 :
  differ_only_in_correct q1 q2 →
  snd (startQuiz now ts id user (<[id := q1]> quizzes))
  = snd (startQuiz now ts id user (<[id := q2]> quizzes))
  ∧ (∀ code data,
       snd (startQuiz now ts id user (<[id := q1]> quizzes)) = Json code data →
       Forall2 shows (qd_questions data) (questions q1)).
Proof.
  intros (Ht & Hd & Hs & Hte & Hqs & Htm & Hdu & Hsd & Hed & Hat & Hia
          & Hca & Hua & Hv).
  apply strip_same_but_correct in Hqs.
  unfold startQuiz, findById. rewrite !lookup_insert_eq.
  rewrite <- Hsd, <- Hed, <- Hat.
  destruct (_ || _); [split; [done|discriminate]|].
  destruct (list_find _ _); [split; [done|discriminate]|].
  simpl. split.
  - f_equal. unfold quizData_of. simpl.
    by rewrite Ht, Hd, Hs, Hte, Hqs, Htm, Hdu, Hsd, Hed, Hat, Hia, Hca, Hv.
  - intros code data [= _ <-]. simpl. apply strip_shows.
Qed.

(** ** One attempt per student *)

Lemma store_invariant_students (quizzes : gmap string quiz) :
  store_invariant quizzes
  ↔ ∀ id l, attempt_students quizzes id = Some l → NoDup l.
Proof.
  unfold store_invariant, attempt_students, one_attempt_per_student. split.
  - intros H id l Hl. destruct (quizzes !! id) as [q|] eqn:Hq; [|done].
    injection Hl as <-. eauto.
  - intros H id q Hq. apply (H id). by rewrite Hq.
Qed.

Lemma attempt_students_save id id' ts q (quizzes : gmap string quiz) :
  attempt_students (save id ts q quizzes) id'
  = if decide (id = id') then Some (student <$> attempts q)
    else attempt_students quizzes id'.
Proof.
  unfold attempt_students, save. rewrite lookup_insert.
  by destruct (decide (id = id')).
Qed.

(** submitQuiz rewrites one attempt in place and keeps its student. *)
Lemma submitQuiz_students now ts id user body quizzes id' :
  attempt_students (fst (submitQuiz now ts id user body quizzes)) id'
  = attempt_students quizzes id'.
Proof.
  unfold submitQuiz, findById.
  destruct (quizzes !! id) as [q|] eqn:Hq; [|by destruct (is_oid id)].
  destruct (list_find _ _) as [[i a]|] eqn:Hf; [|done].
  cbv zeta. destruct (casts _ _); [|done].
  simpl. rewrite attempt_students_save.
  destruct (decide (id = id')) as [<-|]; [|done].
  unfold attempt_students. rewrite Hq. simpl. f_equal.
  apply list_find_Some in Hf as (Hi & _ & _).
  rewrite list_fmap_insert. simpl. apply list_insert_id.
  by rewrite list_lookup_fmap, Hi.
Qed.

(** startQuiz leaves the lists alone or appends the student, who was not in
    the list, to the one of its quiz. *)
Lemma startQuiz_students now ts id user quizzes id' :
  attempt_students (fst (startQuiz now ts id user quizzes)) id'
  = attempt_students quizzes id'
  ∨ (id' = id
     ∧ ∃ l : list string,
         attempt_students quizzes id = Some l
         ∧ (user_id user ∉ l)
         ∧ attempt_students (fst (startQuiz now ts id user quizzes)) id
           = Some (l ++ [user_id user])).
Proof.
  unfold startQuiz, findById.
  destruct (quizzes !! id) as [q|] eqn:Hq; [|by destruct (is_oid id); left].
  destruct (_ || _); [by left|].
  destruct (list_find _ _) eqn:Hf; [by left|].
  simpl. rewrite !attempt_students_save.
  destruct (decide (id = id')) as [<-|]; [|by left].
  right. split; [done|]. exists (student <$> attempts q).
  rewrite decide_True by done. unfold attempt_students. rewrite Hq.
  split_and!; [done | by apply no_attempt_not_elem |].
  simpl. by rewrite fmap_app.
Qed.

Lemma handle_students r quizzes id l :
  attempt_students quizzes id = Some l →
  ∃ l', attempt_students (handle r quizzes) id = Some (l ++ l')
        ∧ (NoDup l → NoDup (l ++ l')).
Proof.
  intros Hl. destruct r as [now ts id0 user|now ts id0 user body]; simpl.
  - destruct (startQuiz_students now ts id0 user quizzes id)
      as [->|(-> & l0 & Hl0 & Hnot & ->)].
    + exists []. rewrite app_nil_r. done.
    + rewrite Hl in Hl0. injection Hl0 as <-.
      exists [user_id user]. split; [done|]. intros Hnd.
      apply NoDup_app. split_and!; [done | | apply NoDup_singleton].
      intros x Hx ->%list_elem_of_singleton. done.
  - rewrite submitQuiz_students. exists []. by rewrite app_nil_r.
Qed.

Lemma handle_students_inv r quizzes id l' :
  attempt_students (handle r quizzes) id = Some l' →
  is_Some (attempt_students quizzes id).
Proof.
  destruct r as [now ts id0 user|now ts id0 user body]; simpl.
  - destruct (startQuiz_students now ts id0 user quizzes id)
      as [->|(-> & l0 & Hl0 & _)]; [eauto|]. rewrite Hl0. eauto.
  - rewrite submitQuiz_students. eauto.
Qed.

Lemma handle_invariant r quizzes :
  store_invariant quizzes → store_invariant (handle r quizzes).
Proof.
  rewrite !store_invariant_students. intros Hinv id l' Hl'.
  destruct (handle_students_inv _ _ _ _ Hl') as [l Hl].
  destruct (handle_students r _ _ _ Hl) as (k & Hk & Hnd).
  rewrite Hk in Hl'. injection Hl' as <-. eauto.
Qed.

Lemma run_invariant reqs quizzes :
  store_invariant quizzes → store_invariant (run reqs quizzes).
Proof.
  revert quizzes. induction reqs as [|r reqs IH]; intros quizzes Hinv; [done|].
  simpl. apply IH. by apply handle_invariant.
Qed.

Lemma run_students reqs quizzes id l :
  attempt_students quizzes id = Some l →
  ∃ l', attempt_students (run reqs quizzes) id = Some (l ++ l').
Proof.
  revert quizzes l. induction reqs as [|r reqs IH]; intros quizzes l Hl.
  - exists []. by rewrite app_nil_r.
  - simpl. destruct (handle_students r _ _ _ Hl) as (k & Hk & _).
    destruct (IH _ _ Hk) as (k' & Hk'). exists (k ++ k').
    by rewrite app_assoc.
Qed.

(** A student with an attempt is turned away, and nothing is written. *)
Lemma startQuiz_blocked now ts id user quizzes l :
  attempt_students quizzes id = Some l → user_id user ∈ l →
  fst (startQuiz now ts id user quizzes) = quizzes
  ∧ ¬ succeeded (snd (startQuiz now ts id user quizzes)).
Proof.
  unfold attempt_students. intros Hl Hin.
  destruct (quizzes !! id) as [q|] eqn:Hq; [|done]. injection Hl as <-.
  destruct (decide (in_window now q)) as [Hw|Hw].
  - rewrite (startQuiz_attempted _ _ _ _ _ _ Hq Hw); [by split; auto|].
    rewrite <- not_eq_None_Some, no_attempt_not_elem. auto.
  - rewrite (startQuiz_unavailable _ _ _ _ _ _ Hq Hw). by split; auto.
Qed.

(** C2, as the code has it. Over every sequence of startQuiz and submitQuiz
    requests served one after the other, every quiz keeps at most one attempt
    per student. startQuiz turns away a student who has an attempt, whatever
    its status, and writes nothing: with AlreadyAttempted inside the window,
    with QuizNotAvailable outside it, where the window is checked first.
    submitQuiz never adds an attempt. So a student with an attempt never
    starts a second one on that quiz. *)
Theorem one_attempt_per_student_invariant reqs quizzes :
  store_invariant quizzes →
  store_invariant (run reqs quizzes)
  ∧ (∀ now ts id user q,
       quizzes !! id = Some q →
       (∃ a, a ∈ attempts q ∧ student a = user_id user) →
       fst (startQuiz now ts id user quizzes) = quizzes
       ∧ (in_window now q →
          snd (startQuiz now ts id user quizzes) = AlreadyAttempted)
       ∧ (¬ in_window now q →
          snd (startQuiz now ts id user quizzes) = QuizNotAvailable))
  ∧ (∀ now ts id user body id',
       attempt_students (fst (submitQuiz now ts id user body quizzes)) id'
       = attempt_students quizzes id')
  ∧ (∀ id user q,
       quizzes !! id = Some q →
       (∃ a, a ∈ attempts q ∧ student a = user_id user) →
       ∀ now ts,
         fst (startQuiz now ts id user (run reqs quizzes)) = run reqs quizzes
         ∧ ¬ succeeded (snd (startQuiz now ts id user (run reqs quizzes)))).
Proof.
  intros Hinv. split_and!.
  - by apply run_invariant.
  - intros now ts id user q Hq Hex. apply attempt_exists in Hex.
    split_and!.
    + destruct (decide (in_window now q)) as [Hw|Hw].
      * by rewrite (startQuiz_attempted _ _ _ _ _ _ Hq Hw Hex).
      * by rewrite (startQuiz_unavailable _ _ _ _ _ _ Hq Hw).
    + intros Hw. by rewrite (startQuiz_attempted _ _ _ _ _ _ Hq Hw Hex).
    + intros Hw. by rewrite (startQuiz_unavailable _ _ _ _ _ _ Hq Hw).
  - intros. apply submitQuiz_students.
  - intros id user q Hq (a & Hin & Hs) now ts.
    assert (Hl : attempt_students quizzes id = Some (student <$> attempts q))
      by (unfold attempt_students; by rewrite Hq).
    destruct (run_students reqs _ _ _ Hl) as (l' & Hl').
    apply (startQuiz_blocked _ _ _ _ _ _ Hl').
    apply elem_of_app. left. apply list_elem_of_fmap. eauto.
Qed.

(** ** Results retrieval *)

Lemma result_rows (users : gmap string userDoc) (l : list attempt) :
  Forall2 (row_of users) (result_row users <$> l) l.
Proof. induction l; constructor; [by repeat split|done]. Qed.

(** C7. On an existing quiz, getQuizResults answers Forbidden to a requester
    who is neither the quiz's teacher nor an admin, whatever the attempts.
    To the teacher of the quiz and to an admin it answers the quiz title, the
    total marks, and one row per completed attempt, in order, each made of
    the student, score, percentage and submission time; attempts in progress
    give no row, and totalStudents is the number of completed attempts. *)
Theorem getQuizResults_access id user users quizzes q :
  quizzes !! id = Some q →
  (teacher q ≠ user_id user → role user ≠ Admin →
   getQuizResults id user users quizzes = Forbidden)
  ∧ (teacher q = user_id user ∨ role user = Admin →
     ∃ rows,
       getQuizResults id user users quizzes
       = Json 200 (mkQuizResults (title q) (totalMarks q) (length rows) rows)
       ∧ Forall2 (row_of users) rows (filter completed (attempts q))
       ∧ length rows = length (filter completed (attempts q))
       ∧ (∀ a, a ∈ filter completed (attempts q)
               ↔ a ∈ attempts q ∧ status a = Completed)
       ∧ (∀ a, a ∈ attempts q → status a = InProgress →
               a ∉ filter completed (attempts q))).
Proof.
  intros Hq. unfold getQuizResults. rewrite (findById_Some _ _ _ Hq). split.
  - intros Ht Hr. by rewrite !bool_decide_eq_true_2.
  - intros Hok.
    assert (Hc : bool_decide (teacher q ≠ user_id user)
                 && bool_decide (role user ≠ Admin) = false).
    { apply andb_false_iff. rewrite !bool_decide_eq_false.
      destruct Hok; [left|right]; auto. }
    rewrite Hc. eexists. split; [reflexivity|].
    split_and!.
    + apply result_rows.
    + by rewrite length_fmap.
    + intros a. rewrite list_elem_of_filter. unfold completed. tauto.
    + intros a _ Hs. rewrite list_elem_of_filter. unfold completed.
      intros [Hc' _]. congruence.
Qed.

(** ** Quiz definition *)

Lemma new_quiz_questions now qoid uid body i qi :
  in_questions body !! i = Some qi →
  questions (new_quiz now qoid uid body) !! i
  = Some (mkQuestion (qoid i) (qi_questionText qi) (qi_options qi)
                     (qi_correctAnswer qi) (qi_marks qi)).
Proof. intros Hi. simpl. by rewrite list_lookup_imap, Hi. Qed.

Lemma createQuiz_persisted now oid qoid user body subjects quizzes code id quiz :
  snd (createQuiz now oid qoid user body subjects quizzes) = Json code (id, quiz) →
  id = oid ∧ quiz = new_quiz now qoid (user_id user) body
  ∧ valid_quiz quiz
  ∧ quizzes !! oid = None
  ∧ fst (createQuiz now oid qoid user body subjects quizzes)
    = <[oid := quiz]> quizzes.
Proof.
  unfold createQuiz, findById.
  destruct (subjects !! _) as [s|]; [|by destruct (is_oid _)].
  destruct (subject_teacher s); [|done].
  destruct (bool_decide (_ ≠ _)); [done|].
  case_bool_decide as Hv; [|done].
  destruct (quizzes !! oid) eqn:Ho; [done|].
  simpl. intros [= _ <- <-]. done.
Qed.

Lemma createQuiz_rejected now oid qoid user body subjects quizzes :
  ¬ succeeded (snd (createQuiz now oid qoid user body subjects quizzes)) →
  fst (createQuiz now oid qoid user body subjects quizzes) = quizzes.
Proof.
  unfold createQuiz, findById.
  destruct (subjects !! _) as [s|]; [|by destruct (is_oid _)].
  destruct (subject_teacher s); [|done].
  destruct (bool_decide (_ ≠ _)); [done|].
  case_bool_decide as Hv; [|done].
  destruct (quizzes !! oid) eqn:Ho; [done|].
  simpl. intros H. by destruct H.
Qed.

(** C6, as the code has it. createQuiz rejects, and persists nothing for, a
    request in which some question has a negative correct option index: that
    is the one bound questionSchema declares ([min: 0]). Every quiz it
    persists has, for every question, a correct option index of at least 0.
    The length of the options list takes no part in the validation. *)
Theorem createQuiz_validation now oid qoid user body subjects quizzes :
  ((∃ qi, qi ∈ in_questions body ∧ qi_correctAnswer qi < 0) →
   ¬ succeeded (snd (createQuiz now oid qoid user body subjects quizzes))
   ∧ fst (createQuiz now oid qoid user body subjects quizzes) = quizzes)
  ∧ (∀ code id quiz,
       snd (createQuiz now oid qoid user body subjects quizzes)
       = Json code (id, quiz) →
       fst (createQuiz now oid qoid user body subjects quizzes) !! id
       = Some quiz
       ∧ Forall (λ q, 0 <= correctAnswer q) (questions quiz)).
Proof.
  split.
  - intros (qi & Hin & Hneg).
    assert (Hfail : ¬ succeeded
              (snd (createQuiz now oid qoid user body subjects quizzes))).
    { destruct (snd (createQuiz _ _ _ _ _ _ _)) as [code [id quiz]| |] eqn:Hr;
        simpl; [|tauto..].
      apply createQuiz_persisted in Hr as (_ & -> & (_ & Hqs & _) & _).
      apply list_elem_of_lookup in Hin as [i Hi].
      rewrite Forall_lookup in Hqs.
      specialize (Hqs i _ (new_quiz_questions now qoid _ _ _ _ Hi)).
      destruct Hqs as (_ & _ & Hc & _). simpl in Hc. lia. }
    split; [exact Hfail | by apply createQuiz_rejected].
  - intros code id quiz Hr.
    apply createQuiz_persisted in Hr as (-> & -> & (_ & Hqs & _) & _ & ->).
    split; [apply lookup_insert_eq|].
    eapply Forall_impl; [exact Hqs|]. by intros q (_ & _ & Hc & _).
Qed.

(** ** What a submission changes *)


(** ** startQuiz under concurrent requests *)

(** A call that is not interrupted is the handler. *)
Lemma advance_twice_startQuiz (c : startCall) (quizzes : gmap string quiz) :
  let '(quizzes1, s1) := advance save_document c Waiting quizzes in
  let '(quizzes2, s2) := advance save_document c s1 quizzes1 in
  (quizzes2, s2)
  = (fst (startQuiz (call_now c) (call_ts c) (call_id c) (call_user c) quizzes),
     Answered (snd (startQuiz (call_now c) (call_ts c) (call_id c)
                              (call_user c) quizzes))).
Proof.
  unfold startQuiz, findById. simpl. unfold findById.
  destruct (quizzes !! call_id c) as [q|]; [|by destruct (is_oid _)].
  simpl. destruct (_ || _); [done|].
  by destruct (list_find _ _).
Qed.

(** Served one after the other, the second call is turned away. *)
Lemma sequential_startQuiz_one_succeeds (write : write_back) :
  write = save_document ∨ write = save_push →
  ∃ data, first (schedule write call1 call2 [First; First; Second; Second]
                          example_store)
          = Answered (Json 200 data)
  ∧ second (schedule write call1 call2 [First; First; Second; Second]
                     example_store)
    = Answered AlreadyAttempted.
Proof. intros [-> | ->]; eexists; split; vm_compute; reflexivity. Qed.

(** C8 fails on the code. When both calls read the quiz before either
    writes, each finds no attempt of student2 on its copy and both are
    answered 200, however the store applies the writes; when the store applies
    the pushes, as Mongoose sends them, the quiz ends with two attempts of
    student2. *)
Theorem concurrent_startQuiz_both_succeed :
  (∀ write : write_back,
     ∃ data1 data2,
       first (schedule write call1 call2 [First; Second; First; Second]
                       example_store)
       = Answered (Json 200 data1)
       ∧ second (schedule write call1 call2 [First; Second; First; Second]
                          example_store)
         = Answered (Json 200 data2))
  ∧ attempt_students
      (store (schedule save_push call1 call2 [First; Second; First; Second]
                       example_store)) quiz1
    = Some ["student1"; "student2"; "student2"]
  ∧ ¬ store_invariant
        (store (schedule save_push call1 call2 [First; Second; First; Second]
                         example_store)).
Proof.
  split_and!.
  - intros write. eexists _, _. split; reflexivity.
  - vm_compute. reflexivity.
  - intros Hinv.
    assert (Hl : attempt_students
              (store (schedule save_push call1 call2
                               [First; Second; First; Second] example_store))
              quiz1
            = Some ["student1"; "student2"; "student2"])
      by (vm_compute; reflexivity).
    pose proof (proj1 (store_invariant_students _) Hinv _ _ Hl) as Hnd.
    clear Hinv Hl. rename Hnd into Hinv.
    apply NoDup_cons in Hinv as [_ Hinv].
    apply NoDup_cons in Hinv as [Hnot _].
    apply Hnot, list_elem_of_here.
Qed.

(** * Further properties of the engine *)

(** ** Quiz definition: when createQuiz succeeds and what it stores *)

Lemma valid_questions_input (qoid : nat → string) (l : list questionInput) :
  Forall valid_question
    (imap (λ i q, mkQuestion (qoid i) (qi_questionText q) (qi_options q)
                             (qi_correctAnswer q) (qi_marks q)) l)
  ↔ Forall valid_input l.
Proof.
  rewrite !Forall_lookup. split.
  - intros H i qi Hi. specialize (H i _ ltac:(by rewrite list_lookup_imap, Hi)).
    exact H.
  - intros H i q Hq. rewrite list_lookup_imap in Hq.
    destruct (l !! i) as [qi|] eqn:Hi; [|done]. injection Hq as <-.
    exact (H i qi Hi).
Qed.

Lemma total_of_imap (f : nat → questionInput → question)
    (l : list questionInput) (acc : number) :
  (∀ i q, marks (f i q) = qi_marks q) →
  foldl (λ sum q, js_add sum (marks q)) acc (imap f l)
  = foldl (λ sum q, js_add sum (qi_marks q)) acc l.
Proof.
  revert f acc. induction l as [|q l IH]; intros f acc Hf; [done|].
  rewrite imap_cons. simpl. rewrite Hf, IH; [done|].
  intros i q'. apply Hf.
Qed.

(** Rounding a non-negative mantissa never gives NaN. *)
Lemma shr_1_nonneg (mrs : shr_record) :
  0 <= shr_m mrs → 0 <= shr_m (shr_1 mrs).
Proof.
  destruct mrs as [m r s]. simpl.
  destruct m as [|p|p]; [done| |lia]. by destruct p.
Qed.

Lemma iter_shr_1_nonneg (p : positive) : ∀ mrs : shr_record,
  0 <= shr_m mrs → 0 <= shr_m (SpecFloat.iter_pos shr_1 p mrs).
Proof.
  induction p as [p IH|p IH|]; intros mrs Hm; simpl.
  - apply IH, IH. by apply shr_1_nonneg.
  - by apply IH, IH.
  - by apply shr_1_nonneg.
Qed.

Lemma shr_fexp_nonneg (m e : Z) (l : location) :
  0 <= m → 0 <= shr_m (fst (shr_fexp 53 1024 m e l)).
Proof.
  intros Hm. unfold shr_fexp, shr.
  assert (H0 : 0 <= shr_m (shr_record_of_loc m l)) by (by destruct l as [|[]]).
  destruct (_ - e) as [|p|p]; simpl; [done | | done].
  by apply iter_shr_1_nonneg.
Qed.

Lemma binary_round_aux_not_nan (s : bool) (m e : Z) (l : location) :
  0 <= m → is_nan (binary_round_aux 53 1024 s m e l) = false.
Proof.
  intros Hm. unfold binary_round_aux.
  pose proof (shr_fexp_nonneg m e l Hm) as H1.
  destruct (shr_fexp 53 1024 m e l) as [mrs1 e1]. simpl in H1.
  assert (H2 : 0 <= round_nearest_even (shr_m mrs1) (loc_of_shr_record mrs1)).
  { unfold round_nearest_even.
    destruct (loc_of_shr_record mrs1) as [|[]]; try done; [|lia].
    destruct (Z.even _); lia. }
  pose proof (shr_fexp_nonneg _ e1 loc_Exact H2) as H3.
  destruct (shr_fexp 53 1024 _ e1 loc_Exact) as [mrs2 e2]. simpl in H3.
  destruct (shr_m mrs2) as [|p|p]; [done | by destruct (_ <=? _) | lia].
Qed.

(** A number that is at least 1 is a positive finite number or the positive
    infinity; a sum of such numbers, from 0, is a number. *)
Lemma js_le_1_nonneg (x : number) : js_le (num 1) x = true → nonneg x.
Proof. by destruct x as [[]|[]| |[] ? ?]. Qed.

Lemma js_add_nonneg (x y : number) :
  nonneg x → nonneg y → nonneg (js_add x y).
Proof.
  destruct x as [sx|sx| |sx mx ex], y as [sy|sy| |sy my ey]; simpl;
    try done; intros -> ->; try done.
  unfold binary_normalize. simpl.
  match goal with
  | |- context [binary_round 53 1024 false ?m ?e] =>
      pose proof (binary_round_aux_not_nan false
                    (Zpos (fst (shl_align m e
                             (fexp 53 1024 (Zpos (digits2_pos m) + e)))))
                    (snd (shl_align m e
                             (fexp 53 1024 (Zpos (digits2_pos m) + e))))
                    loc_Exact ltac:(lia)) as Hn;
      unfold binary_round;
      destruct (shl_align m e _) as [mz ez]; simpl in Hn
  end.
  unfold binary_round_aux in *.
  destruct (shr_fexp 53 1024 (Z.pos mz) ez loc_Exact) as [mrs1 e1].
  destruct (shr_fexp 53 1024 _ e1 loc_Exact) as [mrs2 e2].
  destruct (shr_m mrs2); [done| |done]. by destruct (_ <=? _).
Qed.

Lemma nonneg_not_nan (x : number) : nonneg x → is_nan x = false.
Proof. by destruct x. Qed.

Lemma sum_marks_nonneg (l : list questionInput) (acc : number) :
  nonneg acc → Forall valid_input l →
  nonneg (foldl (λ sum q, js_add sum (qi_marks q)) acc l).
Proof.
  intros Hacc Hl. revert acc Hacc.
  induction Hl as [|q l (_ & _ & _ & Hq) _ IH]; intros acc Hacc; [done|].
  simpl. apply IH, js_add_nonneg; [done|]. by apply js_le_1_nonneg.
Qed.

(** X1. createQuiz succeeds exactly when the subject exists and is taught by
    the requester, the title is not empty once trimmed of white space, every
    question has a text, no empty option, a correct option index of at
    least 0 and marks of at least 1 (NaN is not), the duration is at least 1,
    and the new id is free. Nothing else of the request is checked: an empty
    list of questions and an end date before the start date pass. *)
Theorem createQuiz_success_iff now oid qoid user body subjects quizzes :
  succeeded (snd (createQuiz now oid qoid user body subjects quizzes))
  ↔ (∃ s, subjects !! in_subjectId body = Some s
          ∧ subject_teacher s = Some (user_id user))
    ∧ trim (in_title body) ≠ ""
    ∧ Forall valid_input (in_questions body)
    ∧ 1 <= in_duration body
    ∧ quizzes !! oid = None.
Proof.
  unfold createQuiz, findById.
  destruct (subjects !! in_subjectId body) as [s|]; simpl.
  2: { destruct (is_oid _); (split; [done|]); by intros [(s & Hs & _) _]. }
  destruct (subject_teacher s) as [t|] eqn:Ht; simpl.
  2: { split; [done|]. intros [(s' & [= <-] & Hs') _]. congruence. }
  case_bool_decide as Hne; simpl.
  { split; [done|]. intros [(s' & [= <-] & Hs') _]. congruence. }
  assert (t = user_id user) as -> by (by destruct (decide (t = user_id user))).
  case_bool_decide as Hv.
  - destruct Hv as (Htitle & Hqs & _ & Hd). simpl in Htitle, Hqs, Hd.
    apply valid_questions_input in Hqs.
    destruct (quizzes !! oid) eqn:Ho; simpl.
    + split; [done|]. by intros (_ & _ & _ & _ & ?).
    + split; [|done]. intros _. split_and!; eauto.
  - simpl. split; [done|]. intros (_ & Htitle & Hqs & Hd & _).
    apply Hv. split_and!; simpl; [done | by apply valid_questions_input | | done].
    apply nonneg_not_nan, sum_marks_nonneg; done.
Qed.

(** X2. The quiz createQuiz answers with is the one it stored under the new
    id, with status 201. Its total marks are the marks of its questions
    added in doubles, from 0 and in the order of the questions (so a
    submission that earns every question once, in that order, scores exactly
    the total). It has as many questions as the request, no attempt, is
    active, belongs to the requester and to the subject of the request, both
    time stamps are the time of creation and its version key is 0. *)
Theorem createQuiz_stores now oid qoid user body subjects quizzes code id quiz :
  snd (createQuiz now oid qoid user body subjects quizzes)
  = Json code (id, quiz) →
  code = 201 ∧ id = oid
  ∧ fst (createQuiz now oid qoid user body subjects quizzes) !! oid = Some quiz
  ∧ totalMarks quiz = total_of (questions quiz)
  ∧ length (questions quiz) = length (in_questions body)
  ∧ attempts quiz = []
  ∧ isActive quiz = true
  ∧ teacher quiz = user_id user
  ∧ subject quiz = in_subjectId body
  ∧ duration quiz = in_duration body
  ∧ startDate quiz = in_startDate body ∧ endDate quiz = in_endDate body
  ∧ createdAt quiz = now ∧ updatedAt quiz = now ∧ version quiz = 0.
Proof.
  intros Hr.
  assert (code = 201) as ->.
  { revert Hr. unfold createQuiz.
    repeat (case_match; simpl; try done). by intros [= <- _]. }
  apply createQuiz_persisted in Hr as (-> & -> & _ & _ & ->).
  split_and!; try reflexivity.
  - apply lookup_insert_eq.
  - simpl. unfold total_of. by rewrite total_of_imap.
  - simpl. apply length_imap.
Qed.

(** X3. createQuiz never touches a quiz that exists: when it succeeds the new
    collection is the old one with one more quiz, under an id that was free;
    when it fails nothing is written. It keeps the invariant of one attempt
    per student. *)
Theorem createQuiz_frame now oid qoid user body subjects quizzes :
  (∀ id q, quizzes !! id = Some q →
           fst (createQuiz now oid qoid user body subjects quizzes) !! id
           = Some q)
  ∧ (succeeded (snd (createQuiz now oid qoid user body subjects quizzes)) →
     quizzes !! oid = None
     ∧ dom (fst (createQuiz now oid qoid user body subjects quizzes))
       = {[ oid ]} ∪ dom quizzes)
  ∧ (¬ succeeded (snd (createQuiz now oid qoid user body subjects quizzes)) →
     fst (createQuiz now oid qoid user body subjects quizzes) = quizzes)
  ∧ (store_invariant quizzes →
     store_invariant
       (fst (createQuiz now oid qoid user body subjects quizzes))).
Proof.
  destruct (snd (createQuiz now oid qoid user body subjects quizzes))
    as [code [id quiz]| |] eqn:Hr.
  - apply createQuiz_persisted in Hr as (-> & -> & _ & Ho & ->).
    split_and!.
    + intros id q Hq. rewrite lookup_insert_ne; [done|]. congruence.
    + intros _. split; [done|]. apply dom_insert_L.
    + intros H. by destruct H.
    + intros Hinv id q. rewrite lookup_insert.
      case_decide; [|by apply Hinv]. intros [= <-].
      apply NoDup_nil_2.
  - rewrite createQuiz_rejected by (rewrite Hr; auto).
    split_and!; auto. intros [].
  - rewrite createQuiz_rejected by (rewrite Hr; auto).
    split_and!; auto. intros [].
Qed.

(** ** What startQuiz and submitQuiz write *)

Lemma startQuiz_succeeded now ts id user quizzes :
  succeeded (snd (startQuiz now ts id user quizzes)) →
  ∃ q, quizzes !! id = Some q ∧ in_window now q
       ∧ list_find (attempt_of (user_id user)) (attempts q) = None.
Proof.
  unfold startQuiz, findById.
  destruct (quizzes !! id) as [q|]; [|by destruct (is_oid _)].
  destruct (_ || _) eqn:Hw; [done|]. apply window_check in Hw.
  destruct (list_find _ _) eqn:Hf; [done|]. eauto.
Qed.

(** X4. startQuiz succeeds exactly when the quiz exists, [now] lies in
    [startDate, endDate] and the student has no attempt on the quiz; whether
    the quiz is active plays no part. A call that is turned away writes
    nothing. *)
Theorem startQuiz_success_iff now ts id user quizzes :
  (succeeded (snd (startQuiz now ts id user quizzes))
   ↔ ∃ q, quizzes !! id = Some q ∧ startDate q <= now <= endDate q
          ∧ user_id user ∉ student <$> attempts q)
  ∧ (¬ succeeded (snd (startQuiz now ts id user quizzes)) →
     fst (startQuiz now ts id user quizzes) = quizzes).
Proof.
  split.
  - split.
    + intros (q & Hq & Hw & Hf)%startQuiz_succeeded.
      exists q. by rewrite <- no_attempt_not_elem.
    + intros (q & Hq & Hw & Hf). apply no_attempt_not_elem in Hf.
      by rewrite (startQuiz_fresh _ _ _ _ _ _ Hq Hw Hf).
  - unfold startQuiz, findById.
    destruct (quizzes !! id) as [q|]; [|by destruct (is_oid _)].
    destruct (_ || _); [done|]. destruct (list_find _ _); [done|].
    simpl. intros H. by destruct H.
Qed.

(** X5. A successful startQuiz appends one attempt to the quiz: in progress,
    of the requester, started at [now], with no answers, score, percentage
    or submission time. The attempts already there, the definition of the
    quiz and the other quizzes are kept; [updatedAt] is stamped and the
    version key goes up by one. The answer
    carries the whole list of attempts of the quiz, those of the other
    students with their answers and scores included. *)
Theorem startQuiz_effect now ts id user quizzes q :
  quizzes !! id = Some q →
  succeeded (snd (startQuiz now ts id user quizzes)) →
  ∃ q' data,
    fst (startQuiz now ts id user quizzes) = <[id := q']> quizzes
    ∧ snd (startQuiz now ts id user quizzes) = Json 200 data
    ∧ same_definition q' q
    ∧ updatedAt q' = ts
    ∧ version q' = version q + 1
    ∧ attempts q'
      = attempts q
        ++ [mkAttempt (user_id user) [] None None (Some now) None InProgress]
    ∧ qd_attempts data = attempts q'
    ∧ (∀ id', id' ≠ id →
              fst (startQuiz now ts id user quizzes) !! id' = quizzes !! id').
Proof.
  intros Hq (q0 & Hq0 & Hw & Hf)%startQuiz_succeeded.
  rewrite Hq in Hq0. injection Hq0 as <-.
  rewrite (startQuiz_fresh _ _ _ _ _ _ Hq Hw Hf). simpl.
  eexists _, _. split_and!; try reflexivity.
  - by repeat split.
  - intros id' Hne. unfold save. by rewrite lookup_insert_ne.
Qed.

(** X6. A submitQuiz that does not succeed writes nothing, and it is turned
    away in one of four ways: 404 when the id is well formed and no quiz has
    it; 400 when the student has no attempt in progress on the quiz; 500
    when the id is not an ObjectId (findById throws); 500 when the score or
    the percentage is NaN, as on a quiz whose total marks are 0 (save
    refuses the document). *)
Theorem submitQuiz_failure_writes_nothing now ts id user body quizzes :
  ¬ succeeded (snd (submitQuiz now ts id user body quizzes)) →
  fst (submitQuiz now ts id user body quizzes) = quizzes
  ∧ ((snd (submitQuiz now ts id user body quizzes) = QuizNotFound
      ∧ quizzes !! id = None ∧ is_oid id = true)
     ∨ (snd (submitQuiz now ts id user body quizzes) = NoActiveAttempt
        ∧ ∃ q, quizzes !! id = Some q
               ∧ list_find (active_attempt_of (user_id user)) (attempts q)
                 = None)
     ∨ (snd (submitQuiz now ts id user body quizzes) = CastFailed
        ∧ quizzes !! id = None ∧ is_oid id = false)
     ∨ (snd (submitQuiz now ts id user body quizzes) = ValidationFailed
        ∧ ∃ q, quizzes !! id = Some q
               ∧ (is_nan (calculate_score (questions q) body) = true
                  ∨ is_nan (calculate_percentage
                              (calculate_score (questions q) body)
                              (totalMarks q)) = true))).
Proof.
  unfold submitQuiz, findById. destruct (quizzes !! id) as [q|].
  2: { destruct (is_oid id) eqn:Ho; simpl; intros _; (split; [done|]).
       - by left.
       - right. right. by left. }
  destruct (list_find _ _) as [[i a]|] eqn:Hf; simpl.
  2: { intros _. split; [done|]. right. left. eauto. }
  cbv zeta. unfold casts.
  destruct (is_nan (calculate_score _ _)) eqn:Hs; simpl.
  { intros _. split; [done|]. do 3 right. eauto. }
  destruct (is_nan (calculate_percentage _ _)) eqn:Hp; simpl.
  { intros _. split; [done|]. do 3 right. eauto. }
  intros H. by destruct H.
Qed.

(** ** What no sequence of requests changes *)

Lemma attempt_evolves_refl (a : attempt) : attempt_evolves a a.
Proof. by repeat split. Qed.

Lemma quiz_evolves_refl (q : quiz) : quiz_evolves q q.
Proof.
  split; [by repeat split|]. intros j a Hj. exists a.
  split; [done | apply attempt_evolves_refl].
Qed.

Lemma same_definition_trans (a b c : quiz) :
  same_definition a b → same_definition b c → same_definition a c.
Proof.
  unfold same_definition. intros H1 H2.
  destruct H1 as (? & ? & ? & ? & ? & ? & ? & ? & ? & ? & ?).
  destruct H2 as (? & ? & ? & ? & ? & ? & ? & ? & ? & ? & ?).
  split_and!; congruence.
Qed.

Lemma quiz_evolves_trans (a b c : quiz) :
  quiz_evolves a b → quiz_evolves b c → quiz_evolves a c.
Proof.
  intros [Hd1 Ha1] [Hd2 Ha2]. split; [by eapply same_definition_trans|].
  intros j x Hx. destruct (Ha1 j x Hx) as (y & Hy & Hs1 & Ht1 & Hc1 & Hp1).
  destruct (Ha2 j y Hy) as (z & Hz & Hs2 & Ht2 & Hc2 & Hp2).
  exists z. split; [done|]. split_and!; try congruence.
  - intros Hc. rewrite <- (Hc1 Hc). apply Hc2. by rewrite (Hc1 Hc).
  - intros Hp. rewrite (Hp2 Hp). apply Hp1. by rewrite <- (Hp2 Hp).
Qed.

Lemma handle_evolves r quizzes id q :
  quizzes !! id = Some q →
  ∃ q', handle r quizzes !! id = Some q' ∧ quiz_evolves q q'.
Proof.
  intros Hq. destruct r as [now ts id0 user|now ts id0 user body]; simpl.
  - unfold startQuiz, findById. destruct (quizzes !! id0) as [q0|] eqn:Hq0;
      [|destruct (is_oid _); eauto using quiz_evolves_refl].
    destruct (_ || _); [eauto using quiz_evolves_refl|].
    destruct (list_find _ _); [eauto using quiz_evolves_refl|].
    simpl. unfold save. rewrite lookup_insert.
    case_decide as Hid; [|eauto using quiz_evolves_refl]. subst id0.
    rewrite Hq in Hq0. injection Hq0 as <-.
    eexists. split; [done|]. split; [by repeat split|].
    intros j a Hj. exists a. split; [|apply attempt_evolves_refl].
    simpl. by apply lookup_app_l_Some.
  - unfold submitQuiz, findById. destruct (quizzes !! id0) as [q0|] eqn:Hq0;
      [|destruct (is_oid _); eauto using quiz_evolves_refl].
    destruct (list_find _ _) as [[i x]|] eqn:Hf;
      [|eauto using quiz_evolves_refl].
    cbv zeta. destruct (casts _ _); [|eauto using quiz_evolves_refl].
    simpl. unfold save. rewrite lookup_insert.
    case_decide as Hid; [|eauto using quiz_evolves_refl]. subst id0.
    rewrite Hq in Hq0. injection Hq0 as <-.
    apply list_find_Some in Hf as (Hi & [Hs Hst] & _).
    eexists. split; [done|]. split; [by repeat split|].
    intros j a Hj. simpl. destruct (decide (j = i)) as [->|Hne].
    + rewrite Hi in Hj. injection Hj as <-.
      eexists. split.
      * apply list_lookup_insert_eq. by eapply lookup_lt_Some.
      * split_and!; [done | done | congruence | done].
    + exists a. rewrite list_lookup_insert_ne by done.
      split; [done | apply attempt_evolves_refl].
Qed.

Lemma handle_dom r (quizzes : gmap string quiz) :
  dom (handle r quizzes) = dom quizzes.
Proof.
  assert (Hs : ∀ id q (x : quiz), quizzes !! id = Some q →
                 dom (<[id := x]> quizzes) = dom quizzes).
  { intros id q x Hq. rewrite dom_insert_L.
    assert (Hin : id ∈ dom quizzes) by (by eapply elem_of_dom_2).
    apply set_eq. intros y. rewrite elem_of_union, elem_of_singleton.
    split; [intros [->|?]; done | auto]. }
  destruct r as [now ts id0 user|now ts id0 user body]; simpl.
  - unfold startQuiz, findById.
    destruct (quizzes !! id0) as [q0|] eqn:Hq0; [|by destruct (is_oid _)].
    destruct (_ || _); [done|]. destruct (list_find _ _); [done|].
    simpl. by eapply Hs.
  - unfold submitQuiz, findById.
    destruct (quizzes !! id0) as [q0|] eqn:Hq0; [|by destruct (is_oid _)].
    destruct (list_find _ _) as [[i x]|]; [|done].
    cbv zeta. destruct (casts _ _); [|done].
    simpl. by eapply Hs.
Qed.

Lemma run_evolves reqs quizzes id q :
  quizzes !! id = Some q →
  ∃ q', run reqs quizzes !! id = Some q' ∧ quiz_evolves q q'.
Proof.
  revert quizzes q. induction reqs as [|r reqs IH]; intros quizzes q Hq.
  - exists q. split; [done | apply quiz_evolves_refl].
  - simpl. destruct (handle_evolves r _ _ _ Hq) as (q1 & Hq1 & He1).
    destruct (IH _ _ Hq1) as (q2 & Hq2 & He2).
    exists q2. split; [done|]. by eapply quiz_evolves_trans.
Qed.

(** X7. No sequence of startQuiz and submitQuiz requests creates or deletes
    a quiz, or changes the definition of one: title, description, subject,
    teacher, questions with their correct options and marks, total marks,
    duration, window, activity flag and creation time stay as they were. *)
Theorem run_keeps_definitions reqs quizzes :
  dom (run reqs quizzes) = dom quizzes
  ∧ ∀ id q, quizzes !! id = Some q →
            ∃ q', run reqs quizzes !! id = Some q' ∧ same_definition q' q.
Proof.
  split.
  - revert quizzes. induction reqs as [|r reqs IH]; intros quizzes; [done|].
    simpl. by rewrite IH, handle_dom.
  - intros id q Hq. destruct (run_evolves reqs _ _ _ Hq) as (q' & Hq' & Hd & _).
    eauto.
Qed.

(** X8. Over any sequence of startQuiz and submitQuiz requests an attempt is
    never removed nor moved, keeps its student and its start time, and is
    written at most once: a completed attempt keeps its answers, score,
    percentage and submission time for ever, and an attempt that is still in
    progress is as it was created. *)
Theorem run_keeps_attempts reqs quizzes id q j a :
  quizzes !! id = Some q →
  attempts q !! j = Some a →
  ∃ q' a',
    run reqs quizzes !! id = Some q'
    ∧ attempts q' !! j = Some a'
    ∧ student a' = student a ∧ startedAt a' = startedAt a
    ∧ (status a = Completed → a' = a)
    ∧ (status a' = InProgress → a' = a).
Proof.
  intros Hq Hj. destruct (run_evolves reqs _ _ _ Hq) as (q' & Hq' & _ & Ha).
  destruct (Ha j a Hj) as (a' & Hj' & Hs & Ht & Hc & Hp).
  exists q', a'. by split_and!.
Qed.

(** ** From the start of an attempt to the results *)

Lemma find_active_after_push uid now (l : list attempt) :
  list_find (attempt_of uid) l = None →
  list_find (active_attempt_of uid) (l ++ [new_attempt uid now])
  = Some (length l, new_attempt uid now).
Proof.
  intros Hf. apply list_find_Some. split_and!.
  - by rewrite lookup_app_r, Nat.sub_diag.
  - by split.
  - intros j y Hj Hlt [Hy _]. rewrite lookup_app_l in Hj by done.
    apply list_find_None in Hf. rewrite Forall_lookup in Hf.
    by apply (Hf j y).
Qed.

(** X9. A student who has just started a quiz can submit it, at any time,
    and, when the score and the percentage of the answers are numbers (on a
    quiz whose total marks are 0 the percentage is NaN and the submission
    fails with 500), is answered that score and percentage; the teacher of
    the quiz, or an admin, who then reads the results finds a row with that
    student, that score and percentage, and the time of the submission. *)
Theorem start_submit_results now ts now' ts' id user body users requester
    quizzes q :
  quizzes !! id = Some q →
  succeeded (snd (startQuiz now ts id user quizzes)) →
  is_nan (calculate_score (questions q) body) = false →
  is_nan (calculate_percentage (calculate_score (questions q) body)
                               (totalMarks q)) = false →
  teacher q = user_id requester ∨ role requester = Admin →
  ∃ res,
    snd (submitQuiz now' ts' id user body
           (fst (startQuiz now ts id user quizzes)))
    = Json 200 (mkSubmitResult "Quiz submitted successfully"
                  (calculate_score (questions q) body) (totalMarks q)
                  (calculate_percentage (calculate_score (questions q) body)
                                        (totalMarks q)))
    ∧ getQuizResults id requester users
        (fst (submitQuiz now' ts' id user body
                (fst (startQuiz now ts id user quizzes))))
      = Json 200 res
    ∧ mkResultRow (populate users (user_id user))
                  (Some (calculate_score (questions q) body))
                  (Some (calculate_percentage
                           (calculate_score (questions q) body) (totalMarks q)))
                  (Some now')
      ∈ results res.
Proof.
  intros Hq (q0 & Hq0 & Hw & Hf)%startQuiz_succeeded Hsc Hpct Hreq.
  rewrite Hq in Hq0. injection Hq0 as <-.
  rewrite (startQuiz_fresh _ _ _ _ _ _ Hq Hw Hf). simpl.
  pose proof (find_active_after_push (user_id user) now _ Hf) as Hact.
  rewrite (submitQuiz_active now' ts' id user body _
             (touch ts (push_attempt (user_id user) now q))
             (length (attempts q)) (new_attempt (user_id user) now))
    by (apply lookup_insert_eq || exact Hact || by apply casts_true).
  simpl. unfold getQuizResults, save.
  rewrite (findById_Some _ _ _ (lookup_insert_eq _ _ _)). simpl.
  assert (Hc : bool_decide (teacher q ≠ user_id requester)
               && bool_decide (role requester ≠ Admin) = false).
  { apply andb_false_iff. rewrite !bool_decide_eq_false.
    destruct Hreq; [left|right]; auto. }
  rewrite Hc. eexists. split_and!; [reflexivity..|]. simpl.
  apply list_elem_of_fmap.
  exists (complete_attempt body (calculate_score (questions q) body)
            (calculate_percentage (calculate_score (questions q) body)
                                  (totalMarks q)) now'
            (new_attempt (user_id user) now)).
  split; [done|]. apply list_elem_of_filter. split; [done|].
  eapply list_elem_of_lookup_2, list_lookup_insert_eq.
  rewrite length_app. simpl. lia.
Qed.

(** ** The score as a number *)

Lemma score_step_nonneg (qs : list question) (s : number) (a : answer) :
  Forall (λ q, js_le (num 1) (marks q) = true) qs →
  nonneg s → nonneg (score_step qs s a).
Proof.
  intros Hqs Hs. unfold score_step, js_index.
  destruct (decide (0 <= questionIndex a)); [|done].
  destruct (qs !! Z.to_nat (questionIndex a)) as [q|] eqn:Hq; [|done].
  destruct (decide (correctAnswer q = selectedOption a)); [|done].
  apply js_add_nonneg; [done|]. apply js_le_1_nonneg.
  rewrite Forall_lookup in Hqs. by apply (Hqs _ _ Hq).
Qed.

Lemma calculate_score_nonneg (qs : list question) (body : list answer) :
  Forall (λ q, js_le (num 1) (marks q) = true) qs →
  nonneg (calculate_score qs body).
Proof.
  intros Hqs. unfold calculate_score.
  assert (H0 : nonneg (num 0)) by done. revert H0.
  generalize (num 0). induction body as [|a body IH]; intros s Hs; [done|].
  simpl. by apply IH, score_step_nonneg.
Qed.

(** X11. On a quiz whose questions have at least 1 mark each, as the schema
    demands, the score of any submission is a number: it is never NaN and
    never below 0 (it may be the positive infinity). So when save refuses a
    submission on such a quiz, it is for the percentage. *)
Theorem score_is_number qs body :
  Forall (λ q, js_le (num 1) (marks q) = true) qs →
  is_nan (calculate_score qs body) = false
  ∧ js_le (num 0) (calculate_score qs body) = true.
Proof.
  intros Hqs. pose proof (calculate_score_nonneg qs body Hqs) as Hn.
  destruct (calculate_score qs body) as [s|s| |s m e]; simpl in Hn;
    try done; by subst s.
Qed.

Lemma score_perfect (l pre : list question) (acc : number) :
  foldl (score_step (pre ++ l)) acc
    (imap (λ i q, mkAnswer (Z.of_nat (length pre + i)) (correctAnswer q)) l)
  = foldl (λ sum q, js_add sum (marks q)) acc l.
Proof.
  revert pre acc. induction l as [|q l IH]; intros pre acc; [done|].
  rewrite imap_cons. simpl foldl.
  assert (Hstep : score_step (pre ++ q :: l) acc
                    (mkAnswer (Z.of_nat (length pre + 0)) (correctAnswer q))
                  = js_add acc (marks q)).
  { unfold score_step, js_index. simpl questionIndex. simpl selectedOption.
    rewrite decide_True by lia.
    rewrite Nat.add_0_r, Nat2Z.id, list_lookup_middle by done.
    by rewrite decide_True. }
  rewrite Hstep.
  specialize (IH (pre ++ [q]) (js_add acc (marks q))).
  rewrite <- app_assoc in IH. simpl in IH.
  rewrite <- IH. f_equal. apply imap_ext. intros i x _. simpl.
  rewrite length_app. simpl. do 2 f_equal. lia.
Qed.

(** X12. The submission that answers every question once with its correct
    option, in the order of the questions, scores exactly what createQuiz
    stores as total marks for these questions: the marks added from 0 in
    that order. The order matters: on three questions of 2^53, 1 and 1
    marks the same answers with the first question last score more than
    that total. *)
Theorem perfect_submission qs :
  calculate_score qs (perfect_answers qs) = total_of qs
  ∧ js_le (calculate_score large_questions large_reordered)
          (total_of large_questions) = false
  ∧ large_reordered ≡ₚ perfect_answers large_questions.
Proof.
  split_and!.
  - apply (score_perfect qs [] (num 0)).
  - by vm_compute.
  - unfold large_reordered, perfect_answers, large_questions. simpl.
    change [mkAnswer 1 0; mkAnswer 2 0; mkAnswer 0 0]
      with ([mkAnswer 1 0; mkAnswer 2 0] ++ [mkAnswer 0 0]).
    by rewrite <- Permutation_cons_append.
Qed.

(** ** The rows of the results *)

(** X13. On a quiz that holds at most one attempt per student, the results
    hold at most one row per student, provided the students of the attempts
    still exist (a reference to a deleted user is populated as [null]); and
    there are never more rows than attempts. *)
Theorem getQuizResults_one_row_per_student id requester users quizzes q res :
  quizzes !! id = Some q →
  getQuizResults id requester users quizzes = Json 200 res →
  totalStudents res = length (results res)
  ∧ (length (results res) <= length (attempts q))%nat
  ∧ (one_attempt_per_student q →
     (∀ a, a ∈ attempts q → is_Some (users !! student a)) →
     NoDup (rr_student <$> results res)).
Proof.
  intros Hq. unfold getQuizResults. rewrite (findById_Some _ _ _ Hq).
  destruct (_ && _); [done|]. intros [= <-]. simpl.
  split_and!; [done | |].
  - rewrite length_fmap. apply length_filter.
  - intros Hnd Husers. rewrite <- list_fmap_compose.
    assert (Hsub : NoDup (student <$> filter completed (attempts q))).
    { eapply sublist_NoDup; [exact Hnd|].
      apply fmap_sublist, sublist_filter. }
    rewrite (list_fmap_compose student (populate users)).
    apply NoDup_fmap_2_strong; [|exact Hsub].
    intros x y Hx Hy. unfold populate.
    apply list_elem_of_fmap in Hx as (a & -> & Ha).
    apply list_elem_of_filter in Ha as [_ Ha].
    destruct (Husers a Ha) as [u Hu]. rewrite Hu. simpl.
    destruct (users !! y); simpl; congruence.
Qed.

(** ** The listings *)

Global Instance by_startDate_total : Total by_startDate.
Proof. intros a b. unfold by_startDate. lia. Qed.

Global Instance by_startDate_trans : Transitive by_startDate.
Proof. intros a b c. unfold by_startDate. lia. Qed.

Global Instance by_createdAt_desc_total : Total by_createdAt_desc.
Proof. intros a b. unfold by_createdAt_desc. lia. Qed.

Global Instance by_createdAt_desc_trans : Transitive by_createdAt_desc.
Proof. intros a b c. unfold by_createdAt_desc. lia. Qed.

(** What [find(filter).sort(key)] followed by the projection gives,
    whatever the filter and the key. *)
Section Listing.
Context {S : Type} (R : relation (string * quiz)) `{∀ x y, Decision (R x y)}.
Context `{!Total R, !Transitive R}.
Context (P : string * quiz → Prop) `{∀ d, Decision (P d)}.
Context (hide : bool) (users : gmap string userDoc) (sub : string → S).
Context (quizzes : gmap string quiz).

Lemma listing_elem (item : listedQuiz S) :
  item ∈ listed hide users sub
           <$> merge_sort R (filter P (map_to_list quizzes))
  ↔ ∃ id q, quizzes !! id = Some q ∧ P (id, q)
            ∧ item = listed hide users sub (id, q).
Proof.
  rewrite list_elem_of_fmap. split.
  - intros ([id q] & -> & Hin). rewrite merge_sort_Permutation in Hin.
    apply list_elem_of_filter in Hin as [HP Hin].
    apply elem_of_map_to_list in Hin. eauto.
  - intros (id & q & Hq & HP & ->). exists (id, q). split; [done|].
    rewrite merge_sort_Permutation. apply list_elem_of_filter.
    split; [done|]. by apply elem_of_map_to_list.
Qed.

Lemma listing_ids :
  lz_id <$> (listed hide users sub
               <$> merge_sort R (filter P (map_to_list quizzes)))
  ≡ₚ (filter P (map_to_list quizzes)).*1.
Proof.
  rewrite <- list_fmap_compose.
  rewrite (merge_sort_Permutation R (filter P (map_to_list quizzes))).
  done.
Qed.

Lemma listing_NoDup :
  NoDup (lz_id <$> (listed hide users sub
                      <$> merge_sort R (filter P (map_to_list quizzes)))).
Proof.
  rewrite listing_ids.
  eapply sublist_NoDup; [apply (NoDup_fst_map_to_list quizzes)|].
  apply fmap_sublist, sublist_filter.
Qed.

Lemma listing_sorted (R2 : relation (listedQuiz S)) :
  (∀ x y, R x y →
          R2 (listed hide users sub x) (listed hide users sub y)) →
  StronglySorted R2
    (listed hide users sub <$> merge_sort R (filter P (map_to_list quizzes))).
Proof.
  intros HR. eapply StronglySorted_fmap; [exact HR|].
  by apply StronglySorted_merge_sort.
Qed.
End Listing.

(** X14. getQuizzesBySubject answers 500 when the subject id of the request
    is not an ObjectId (the query cannot be cast). Otherwise it lists, once
    each and by ascending start date, exactly the quizzes of the subject
    that are active and whose end date is not before [now]: a quiz that ends
    at [now] is listed, one that ended before is not, and one that has not
    started yet is. *)
Theorem getQuizzesBySubject_lists now subjectId user users quizzes :
  (is_oid subjectId = false →
   getQuizzesBySubject now subjectId user users quizzes = CastFailed)
  ∧ (is_oid subjectId = true →
     ∃ items,
       getQuizzesBySubject now subjectId user users quizzes = Json 200 items
       ∧ (∀ id, id ∈ lz_id <$> items
                ↔ ∃ q, quizzes !! id = Some q ∧ subject q = subjectId
                       ∧ isActive q = true ∧ now <= endDate q)
       ∧ NoDup (lz_id <$> items)
       ∧ StronglySorted (λ a b, lz_startDate a <= lz_startDate b) items).
Proof.
  unfold getQuizzesBySubject. split; [by intros ->|]. intros ->.
  eexists. split; [reflexivity|]. split_and!.
  - intros id. rewrite list_elem_of_fmap. split.
    + intros (item & -> & Hin). apply listing_elem in Hin
        as (id' & q & Hq & (Hs & Ha & He) & ->). simpl. eauto.
    + intros (q & Hq & Hs & Ha & He).
      eexists. split; [|apply listing_elem; exists id, q; split_and!; eauto].
      * done.
      * by split_and!.
  - apply listing_NoDup.
  - apply listing_sorted; [apply _ .. |]. intros x y Hxy. exact Hxy.
Qed.

(** X15. In the listing of getQuizzesBySubject a student sees no correct
    option, and every other requester (an admin, and any teacher, of the
    subject or not) sees the correct option of every question. Both see the
    attempts of every student on the quiz, answers and scores included. *)
Theorem getQuizzesBySubject_discloses now subjectId user users quizzes items :
  getQuizzesBySubject now subjectId user users quizzes = Json 200 items →
  ∀ item, item ∈ items →
    ∃ q, quizzes !! lz_id item = Some q
         ∧ lz_attempts item = attempts q
         ∧ strip <$> questions q
           = (λ lq, mkStudentQuestion (lq_id lq) (lq_questionText lq)
                                      (lq_options lq) (lq_marks lq))
             <$> lz_questions item
         ∧ (role user = Student →
            Forall (λ lq, lq_correctAnswer lq = None) (lz_questions item))
         ∧ (role user ≠ Student →
            lq_correctAnswer <$> lz_questions item
            = Some ∘ correctAnswer <$> questions q).
Proof.
  unfold getQuizzesBySubject. destruct (is_oid subjectId); [|done].
  intros [= <-] item Hin.
  apply listing_elem in Hin as (id & q & Hq & _ & ->). simpl.
  exists q. split_and!; [done | done | | |].
  - rewrite <- list_fmap_compose. by apply list_fmap_ext.
  - intros Hr. rewrite bool_decide_eq_true_2 by done.
    apply Forall_fmap, Forall_forall. by intros.
  - intros Hr. rewrite bool_decide_eq_false_2 by done.
    rewrite <- list_fmap_compose. by apply list_fmap_ext.
Qed.

Lemma taught_subject_ids (subjects : gmap string subjectInfo) dept semester
    (sid : string) :
  sid ∈ (filter (taught_to dept semester) (map_to_list subjects)).*1
  ↔ ∃ s, subjects !! sid = Some s
         ∧ si_department s = dept ∧ si_semester s = semester.
Proof.
  rewrite list_elem_of_fmap. split.
  - intros ([i s] & -> & Hin). apply list_elem_of_filter in Hin as [[Hd Hs] Hin].
    apply elem_of_map_to_list in Hin. simpl in *. eauto.
  - intros (s & Hs & Hd & Hsem). exists (sid, s). split; [done|].
    apply list_elem_of_filter. split; [by split|].
    by apply elem_of_map_to_list.
Qed.

(** X16. getStudentQuizzes answers 500 when the requester is not a stored
    user, and the empty list when the student has no department or refers to
    a department that is gone. Otherwise it lists, once each and newest
    first, exactly the active quizzes of the subjects of the student's
    department and semester, with no correct option in any question. The
    window of a quiz plays no part: quizzes that have ended, or not started,
    are listed. *)
Theorem getStudentQuizzes_lists user students departments subjects users
    quizzes :
  (students !! user_id user = None →
   ¬ succeeded (getStudentQuizzes user students departments subjects users
                                  quizzes))
  ∧ ∀ st, students !! user_id user = Some st →
      ((sd_department st = None
        ∨ ∃ d, sd_department st = Some d ∧ d ∉ departments) →
       getStudentQuizzes user students departments subjects users quizzes
       = Json 200 [])
      ∧ ∀ dept, sd_department st = Some dept → dept ∈ departments →
          ∃ items,
            getStudentQuizzes user students departments subjects users quizzes
            = Json 200 items
            ∧ (∀ id, id ∈ lz_id <$> items
                     ↔ ∃ q s, quizzes !! id = Some q ∧ isActive q = true
                              ∧ subjects !! subject q = Some s
                              ∧ si_department s = dept
                              ∧ si_semester s = sd_semester st)
            ∧ NoDup (lz_id <$> items)
            ∧ StronglySorted (λ a b, lz_createdAt b <= lz_createdAt a) items
            ∧ Forall (λ item, Forall (λ lq, lq_correctAnswer lq = None)
                                     (lz_questions item)) items.
Proof.
  unfold getStudentQuizzes. split; [intros -> Hs; exact Hs|].
  intros st ->. split.
  - intros [Hd|(d & Hd & Hnot)]; unfold populated_department; rewrite Hd;
      simpl; [done|]. by rewrite bool_decide_eq_false_2.
  - intros dept Hd Hin. unfold populated_department. rewrite Hd. simpl.
    rewrite bool_decide_eq_true_2 by done.
    eexists. split; [reflexivity|]. split_and!.
    + intros id. rewrite list_elem_of_fmap. split.
      * intros (item & -> & Hitem).
        apply listing_elem in Hitem as (id' & q & Hq & [Hs Ha] & ->).
        simpl in *. apply taught_subject_ids in Hs as (s & Hs & ? & ?).
        eauto 10.
      * intros (q & s & Hq & Ha & Hs & Hdep & Hsem).
        eexists. split; [|apply listing_elem; exists id, q; split_and!; eauto].
        -- done.
        -- split; [|done]. simpl. apply taught_subject_ids. eauto.
    + apply listing_NoDup.
    + apply listing_sorted; [apply _ .. |]. intros x y Hxy. exact Hxy.
    + apply Forall_forall. intros item Hitem.
      apply listing_elem in Hitem as (id' & q & _ & _ & ->). simpl.
      apply Forall_fmap, Forall_forall. by intros.
Qed.

(** ** The quiz statistics of a student *)

Lemma optional_field_not_null {A} (f : attempt → option A) (a : option attempt) :
  not_null (optional_field f a).
Proof. unfold optional_field. by destruct (a ≫= f). Qed.

Lemma filter_all {A} (P : A → Prop) `{∀ x, Decision (P x)} (l : list A) :
  Forall P l → filter P l = l.
Proof.
  induction 1 as [|x l Hx _ IH]; [done|].
  rewrite filter_cons_True by done. by rewrite IH.
Qed.

Lemma length_filter_map_to_list (P : string * quiz → Prop)
    `{∀ d, Decision (P d)} (quizzes : gmap string quiz) :
  length (filter P (map_to_list quizzes)) = size (filter P quizzes).
Proof.
  rewrite <- length_map_to_list. apply Permutation_length.
  apply NoDup_Permutation.
  - apply NoDup_filter, NoDup_map_to_list.
  - apply NoDup_map_to_list.
  - intros [i x]. rewrite list_elem_of_filter, !elem_of_map_to_list.
    rewrite map_lookup_filter_Some. tauto.
Qed.

(** X17. In the report of a student, [totalQuizzes] is the number of quizzes
    on which the student has an attempt, whether completed or still in
    progress: the test [percentage !== null] that selects the completed ones
    lets every entry through, as a percentage that was never written is
    undefined and not null. *)
Theorem totalQuizzes_counts_every_attempt studentId subjects quizzes :
  completedQuizzes (quizStats studentId subjects quizzes)
  = quizStats studentId subjects quizzes
  ∧ totalQuizzes studentId subjects quizzes
    = size (filter (attempted_by studentId) quizzes)
  ∧ (∀ id q, filter (attempted_by studentId) quizzes !! id = Some q
             ↔ quizzes !! id = Some q
               ∧ ∃ a, a ∈ attempts q ∧ student a = studentId).
Proof.
  assert (Hall : completedQuizzes (quizStats studentId subjects quizzes)
                 = quizStats studentId subjects quizzes).
  { unfold completedQuizzes. apply filter_all, Forall_forall.
    intros stat Hin. unfold quizStats in Hin.
    apply list_elem_of_fmap in Hin as (d & -> & _). simpl.
    apply optional_field_not_null. }
  split_and!; [exact Hall | |].
  - unfold totalQuizzes. rewrite Hall. unfold quizStats.
    by rewrite length_fmap, length_filter_map_to_list.
  - intros id q. rewrite map_lookup_filter_Some.
    unfold attempted_by, attempt_of. simpl. by rewrite Exists_exists.
Qed.

(** ** Two starts in flight *)

Lemma start_check_fresh now user q :
  in_window now q →
  list_find (attempt_of (user_id user)) (attempts q) = None →
  start_check now user (Some q) = inr (push_attempt (user_id user) now q).
Proof.
  intros Hw Hf. unfold start_check. apply window_check in Hw.
  by rewrite Hw, Hf.
Qed.

(** X18. Whenever two startQuiz calls on the same quiz have both read the
    quiz before either writes, each inside the window and each for a student
    without an attempt, both are answered 200, however the store applies the
    writes. When the store applies the two pushes, both attempts are
    appended; if the two calls are by the same student, the quiz then holds
    two attempts of that student. *)
Theorem interleaved_starts_both_succeed (write : write_back) c1 c2 quizzes q :
  quizzes !! call_id c1 = Some q →
  call_id c2 = call_id c1 →
  in_window (call_now c1) q → in_window (call_now c2) q →
  user_id (call_user c1) ∉ student <$> attempts q →
  user_id (call_user c2) ∉ student <$> attempts q →
  (∃ data1 data2,
     first (schedule write c1 c2 [First; Second; First; Second] quizzes)
     = Answered (Json 200 data1)
     ∧ second (schedule write c1 c2 [First; Second; First; Second] quizzes)
       = Answered (Json 200 data2))
  ∧ (∃ q', store (schedule save_push c1 c2 [First; Second; First; Second]
                           quizzes) !! call_id c1 = Some q'
           ∧ attempts q'
             = attempts q
               ++ [ new_attempt (user_id (call_user c1)) (call_now c1);
                    new_attempt (user_id (call_user c2)) (call_now c2) ]
           ∧ (user_id (call_user c1) = user_id (call_user c2) →
              ¬ one_attempt_per_student q')).
Proof.
  intros Hq Hid Hw1 Hw2 Hf1%no_attempt_not_elem Hf2%no_attempt_not_elem.
  pose proof (findById_Some _ _ _ Hq) as Hfound.
  unfold schedule. cbn -[start_check findById].
  rewrite Hfound. cbn -[start_check findById].
  rewrite Hid, Hfound. cbn -[start_check findById].
  rewrite (start_check_fresh _ _ _ Hw1 Hf1). cbn -[start_check].
  rewrite (start_check_fresh _ _ _ Hw2 Hf2). cbn -[start_check].
  split; [eauto|].
  unfold save_push. rewrite Hid, !lookup_alter_eq, Hq. simpl.
  eexists. split; [reflexivity|]. simpl. split.
  - by rewrite <- app_assoc.
  - intros Heq. unfold one_attempt_per_student. simpl.
    rewrite <- app_assoc, fmap_app. simpl. rewrite Heq.
    intros Hnd. apply NoDup_app in Hnd as (_ & _ & Hnd).
    apply NoDup_cons in Hnd as [Hnot _]. apply Hnot, list_elem_of_here.
Qed.
End Engine.

(** * The properties on worked examples

    The examples take for ObjectIds the strings of 24 hexadecimal digits. *)

Lemma example_ids_cast :
  Forall (λ s, is_hex24 s = true) [quiz0; quiz1; quiz2; quiz7; subject1].
Proof. repeat constructor. Qed.

Lemma submitQuiz_scoring_witness :
  snd (submitQuiz is_hex24 1600 1601 quiz1 student1
                  [mkAnswer 0 1; mkAnswer 1 0] example_store)
  = Json 200 (mkSubmitResult "Quiz submitted successfully" (num 8) (num 8)
                             (num 100)).
Proof.
  refine (proj1 (submitQuiz_scoring is_hex24 1600 1601 quiz1 student1
                   [mkAnswer 0 1; mkAnswer 1 0] example_store example_quiz
                   _ _ _ _)).
  - reflexivity.
  - exists (new_attempt "student1" 1500). split.
    + apply list_elem_of_here.
    + split; reflexivity.
  - vm_compute. reflexivity.
  - vm_compute. reflexivity.
Defined.

(** C1 as stated fails on the percentage. On a quiz of total marks 25 a
    submission that scores 7 is answered the percentage
    7881299347898369 * 2^-48 (printed 28.000000000000004): the handler
    computes [(7 / 25) * 100] in doubles, and 7 / 25 is rounded before it is
    multiplied. [100 * 7 / 25] is 28, in exact arithmetic and in doubles. *)
Lemma submitQuiz_scoring_counterexample :
  rounding_store !! quiz7 = Some rounding_quiz
  ∧ totalMarks rounding_quiz = num 25
  ∧ snd (submitQuiz is_hex24 1600 1601 quiz7 student1 [mkAnswer 0 0]
                    rounding_store)
    = Json 200 (mkSubmitResult "Quiz submitted successfully" (num 7) (num 25)
                  (S754_finite false 7881299347898369 (-48)))
  ∧ 100 * 7 = 28 * 25
  ∧ js_div (js_mul (num 100) (num 7)) (num 25) = num 28
  ∧ num 28 = S754_finite false 7881299347898368 (-48)
  ∧ S754_finite false 7881299347898369 (-48) ≠ num 28.
Proof.
  split_and!; try (vm_compute; reflexivity). vm_compute. discriminate.
Qed.





Lemma startQuiz_availability_witness :
  succeeded (snd (startQuiz is_hex24 1000 1001 quiz1 student2 example_store))
  ∧ succeeded (snd (startQuiz is_hex24 2000 2001 quiz1 student2
                              example_store)).
Proof.
  split.
  - refine (proj2 (proj2 (startQuiz_availability is_hex24 1000 1001 quiz1
                            student2 example_store example_quiz eq_refl))
                  _ _ _).
    + simpl. lia.
    + left. reflexivity.
    + intros (a & Hin & Hs). apply list_elem_of_singleton in Hin.
      subst a. discriminate Hs.
  - refine (proj2 (proj2 (startQuiz_availability is_hex24 2000 2001 quiz1
                            student2 example_store example_quiz eq_refl))
                  _ _ _).
    + simpl. lia.
    + right. reflexivity.
    + intros (a & Hin & Hs). apply list_elem_of_singleton in Hin.
      subst a. discriminate Hs.
Defined.

Lemma startQuiz_hides_correct_witness :
  snd (startQuiz is_hex24 1200 1201 quiz1 student2
                 (<[ quiz1 := example_quiz ]> ∅))
  = snd (startQuiz is_hex24 1200 1201 quiz1 student2
           (<[ quiz1 := example_quiz_flipped ]> ∅)).
Proof.
  refine (proj1 (startQuiz_hides_correct is_hex24 1200 1201 quiz1 student2 ∅
                   example_quiz example_quiz_flipped _)).
  unfold differ_only_in_correct, same_but_correct. simpl.
  split_and!; try reflexivity.
  repeat constructor.
Defined.

Lemma example_store_invariant : store_invariant example_store.
Proof.
  intros id q Hq. unfold example_store in Hq.
  apply lookup_singleton_Some in Hq as [_ <-].
  apply NoDup_singleton.
Defined.

Lemma one_attempt_per_student_invariant_witness :
  store_invariant
    (run is_hex24
         [ StartQuiz 1200 1201 quiz1 student2;
           SubmitQuiz 1300 1301 quiz1 student1 [mkAnswer 0 1];
           StartQuiz 1400 1401 quiz1 student1;
           StartQuiz 1500 1501 quiz1 student2 ]
         example_store).
Proof.
  exact (proj1 (one_attempt_per_student_invariant is_hex24 _ example_store
                  example_store_invariant)).
Defined.

(** C2 as stated fails outside the window: student1 has an attempt on the
    example quiz, and a start after the end date is answered with
    QuizNotAvailable, not with AlreadyAttempted. *)
Lemma startQuiz_attempted_counterexample :
  example_store !! quiz1 = Some example_quiz
  ∧ (∃ a, a ∈ attempts example_quiz ∧ student a = user_id student1)
  ∧ snd (startQuiz is_hex24 3000 3001 quiz1 student1 example_store)
    = QuizNotAvailable
  ∧ snd (startQuiz is_hex24 3000 3001 quiz1 student1 example_store)
    ≠ AlreadyAttempted.
Proof.
  split_and!; [reflexivity | | reflexivity | discriminate].
  exists (new_attempt "student1" 1500). split; [apply list_elem_of_here|done].
Qed.

Lemma getQuizResults_access_witness :
  getQuizResults is_hex24 quiz1 (mkPrincipal "teacher2" Teacher)
                 example_users (example_after is_hex24)
  = Forbidden
  ∧ getQuizResults is_hex24 quiz1 (mkPrincipal "teacher1" Teacher)
                   example_users (example_after is_hex24)
    = Json 200
        (mkQuizResults "Example" (num 8) 1
           [ mkResultRow
               (Some ("student1", mkUserDoc "Student User" (Some "ENR001")))
               (Some (num 5))
               (Some (calculate_percentage (num 5) (num 8)))
               (Some 1600) ]).
Proof.
  split.
  - refine (proj1 (getQuizResults_access is_hex24 quiz1
                     (mkPrincipal "teacher2" Teacher)
                     example_users (example_after is_hex24)
                     (touch 1701 (push_attempt "student2" 1700
                        (touch 1601 (set_attempts
                           [complete_attempt [mkAnswer 0 1; mkAnswer 1 1]
                              (num 5) (calculate_percentage (num 5) (num 8))
                              1600 (new_attempt "student1" 1500)]
                           example_quiz))))
                     _) _ _).
    + vm_compute. reflexivity.
    + simpl. discriminate.
    + simpl. discriminate.
  - vm_compute. reflexivity.
Defined.

Lemma createQuiz_validation_witness :
  fst (createQuiz is_hex24 900 quiz2 (λ _, "q")%string teacher1
         (example_body [mkQuestionInput "Which?" ["a"; "b"] (-1) (num 2)])
         example_subjects example_store)
  = example_store.
Proof.
  refine (proj2 (proj1 (createQuiz_validation is_hex24 900 quiz2
                          (λ _, "q")%string teacher1
                          (example_body
                             [mkQuestionInput "Which?" ["a"; "b"] (-1)
                                              (num 2)])
                          example_subjects example_store) _)).
  exists (mkQuestionInput "Which?" ["a"; "b"] (-1) (num 2)). split.
  - apply list_elem_of_here.
  - simpl. lia.
Defined.

(** C6 as stated fails: both questions of [unanswerable_body] are
    persisted. *)
Lemma createQuiz_validation_counterexample :
  (∃ qi, qi ∈ in_questions unanswerable_body ∧ qi_options qi = [])
  ∧ (∃ qi, qi ∈ in_questions unanswerable_body
           ∧ Z.of_nat (length (qi_options qi)) <= qi_correctAnswer qi)
  ∧ succeeded (snd (createQuiz is_hex24 900 quiz2 (λ _, "q")%string teacher1
                      unanswerable_body example_subjects example_store))
  ∧ ∃ quiz,
      fst (createQuiz is_hex24 900 quiz2 (λ _, "q")%string teacher1
             unanswerable_body example_subjects example_store) !! quiz2
      = Some quiz
      ∧ ∃ q1 q2, questions quiz = [q1; q2]
                 ∧ options q1 = []
                 ∧ options q2 = ["a"; "b"] ∧ correctAnswer q2 = 7.
Proof.
  split_and!.
  - eexists. split; [apply list_elem_of_here|done].
  - eexists. split; [apply list_elem_of_further, list_elem_of_here|].
    simpl. lia.
  - vm_compute. exact I.
  - eexists. split; [vm_compute; reflexivity|].
    eexists _, _. split_and!; reflexivity.
Qed.



(** ** The further properties on the worked example *)

Lemma createQuiz_stores_witness :
  fst (createQuiz is_hex24 900 quiz2 (λ _, "q")%string teacher1
                  example_request example_subjects example_store) !! quiz2
  = Some (new_quiz 900 (λ _, "q")%string "teacher1" example_request)
  ∧ totalMarks (new_quiz 900 (λ _, "q")%string "teacher1" example_request)
    = num 5.
Proof.
  assert (Hr : snd (createQuiz is_hex24 900 quiz2 (λ _, "q")%string teacher1
                      example_request example_subjects example_store)
               = Json 201 (quiz2, new_quiz 900 (λ _, "q")%string "teacher1"
                                             example_request))
    by (vm_compute; reflexivity).
  destruct (createQuiz_stores is_hex24 _ _ _ _ _ _ _ _ _ _ Hr)
    as (_ & _ & Hst & Htot & _).
  split; [exact Hst | exact Htot].
Defined.

Lemma startQuiz_effect_witness :
  ∃ q', fst (startQuiz is_hex24 1200 1201 quiz1 student2 example_store)
        = <[ quiz1 := q' ]> example_store
        ∧ updatedAt q' = 1201
        ∧ length (attempts q') = 2%nat.
Proof.
  destruct (startQuiz_effect is_hex24 1200 1201 quiz1 student2 example_store
              example_quiz eq_refl I)
    as (q' & data & Hst & _ & _ & Hup & _ & Hat & _).
  exists q'. split; [exact Hst|]. split; [exact Hup|].
  rewrite Hat. reflexivity.
Defined.

Lemma submitQuiz_failure_writes_nothing_witness :
  fst (submitQuiz is_hex24 1300 1301 quiz0 student1 [] (zero_store is_hex24))
  = zero_store is_hex24
  ∧ fst (submitQuiz is_hex24 1300 1301 "650a1f0e9b3c4d5e6f7081ff" student1 [] example_store)
    = example_store.
Proof.
  split.
  - refine (proj1 (submitQuiz_failure_writes_nothing is_hex24 1300 1301
                     quiz0 student1 [] (zero_store is_hex24) _)).
    vm_compute. exact (λ H, H).
  - refine (proj1 (submitQuiz_failure_writes_nothing is_hex24 1300 1301
                     "650a1f0e9b3c4d5e6f7081ff" student1 [] example_store _)).
    vm_compute. exact (λ H, H).
Defined.

Lemma run_keeps_attempts_witness :
  ∃ q' a',
    run is_hex24
        [ StartQuiz 1200 1201 quiz1 student2;
          SubmitQuiz 2500 2501 quiz1 student2 [mkAnswer 0 1];
          StartQuiz 1300 1301 quiz1 student1 ] example_store !! quiz1
    = Some q'
    ∧ attempts q' !! 0%nat = Some a'
    ∧ student a' = "student1" ∧ startedAt a' = Some 1500.
Proof.
  destruct (run_keeps_attempts is_hex24
              [ StartQuiz 1200 1201 quiz1 student2;
                SubmitQuiz 2500 2501 quiz1 student2 [mkAnswer 0 1];
                StartQuiz 1300 1301 quiz1 student1 ]
              example_store quiz1 example_quiz 0
              (new_attempt "student1" 1500) eq_refl eq_refl)
    as (q' & a' & Hq' & Ha' & Hs & Ht & _).
  exists q', a'. split; [exact Hq'|]. split; [exact Ha'|].
  split; [exact Hs | exact Ht].
Defined.

Lemma start_submit_results_witness :
  ∃ res,
    getQuizResults is_hex24 quiz1 teacher1 example_users
      (fst (submitQuiz is_hex24 2500 2501 quiz1 student2 [mkAnswer 0 1]
              (fst (startQuiz is_hex24 1200 1201 quiz1 student2
                              example_store))))
    = Json 200 res
    ∧ mkResultRow None (Some (num 5))
        (Some (calculate_percentage (num 5) (num 8))) (Some 2500)
      ∈ results res.
Proof.
  destruct (start_submit_results is_hex24 1200 1201 2500 2501 quiz1 student2
              [mkAnswer 0 1] example_users teacher1 example_store
              example_quiz eq_refl I eq_refl eq_refl (or_introl eq_refl))
    as (res & _ & Hres & Hrow).
  exists res. split; [exact Hres | exact Hrow].
Defined.

Lemma score_is_number_witness :
  is_nan (calculate_score example_questions [mkAnswer 1 0; mkAnswer 0 0])
  = false.
Proof.
  refine (proj1 (score_is_number example_questions
                   [mkAnswer 1 0; mkAnswer 0 0] _)).
  repeat constructor.
Defined.

Lemma getQuizResults_one_row_per_student_witness :
  Nat.le
    (length [ mkResultRow
                (Some ("student1", mkUserDoc "Student User" (Some "ENR001")))
                (Some (num 5)) (Some (calculate_percentage (num 5) (num 8)))
                (Some 1600) ])
    2.
Proof.
  refine (proj1 (proj2
    (getQuizResults_one_row_per_student is_hex24 quiz1 teacher1 example_users
       (example_after is_hex24)
       (touch 1701 (push_attempt "student2" 1700
          (touch 1601 (set_attempts
             [complete_attempt [mkAnswer 0 1; mkAnswer 1 1] (num 5)
                (calculate_percentage (num 5) (num 8)) 1600
                (new_attempt "student1" 1500)] example_quiz))))
       (mkQuizResults "Example" (num 8) 1
          [ mkResultRow
              (Some ("student1", mkUserDoc "Student User" (Some "ENR001")))
              (Some (num 5)) (Some (calculate_percentage (num 5) (num 8)))
              (Some 1600) ])
       _ _))).
  - vm_compute. reflexivity.
  - vm_compute. reflexivity.
Defined.

Lemma getQuizzesBySubject_lists_witness :
  getQuizzesBySubject is_hex24 1500 "subject-1" student1 example_users
                      example_store
  = ServerError "Cast to ObjectId failed"
  ∧ ∃ items,
      getQuizzesBySubject is_hex24 1500 subject1 student1 example_users
                          example_store
      = Json 200 items
      ∧ (quiz1 ∈ lz_id <$> items
         ↔ ∃ q, example_store !! quiz1 = Some q
                ∧ subject q = subject1
                ∧ isActive q = true ∧ 1500 <= endDate q).
Proof.
  split.
  - refine (proj1 (getQuizzesBySubject_lists is_hex24 1500 "subject-1"
                     student1 example_users example_store) _).
    vm_compute. reflexivity.
  - destruct (proj2 (getQuizzesBySubject_lists is_hex24 1500 subject1
                       student1 example_users example_store) eq_refl)
      as (items & Hitems & Hin & _).
    exists items. split; [exact Hitems | apply Hin].
Defined.

Lemma getQuizzesBySubject_discloses_witness :
  Forall (λ lq, lq_correctAnswer lq = None)
         (lz_questions (listed true example_users id
                               (quiz1, example_quiz))).
Proof.
  destruct (getQuizzesBySubject_discloses is_hex24 1500 subject1 student1
              example_users example_store
              [listed true example_users id
                      (quiz1, example_quiz)])
    with (item := listed true example_users id
                         (quiz1, example_quiz))
    as (q & _ & _ & _ & Hhide & _).
  - vm_compute. reflexivity.
  - apply list_elem_of_here.
  - apply Hhide. reflexivity.
Defined.

Lemma interleaved_starts_both_succeed_witness :
  ∃ data1 data2,
    first (schedule is_hex24 save_push call1 call2
                    [First; Second; First; Second] example_store)
    = Answered (Json 200 data1)
    ∧ second (schedule is_hex24 save_push call1 call2
                       [First; Second; First; Second] example_store)
      = Answered (Json 200 data2).
Proof.
  refine (proj1 (interleaved_starts_both_succeed is_hex24 save_push call1 call2
                   example_store example_quiz eq_refl eq_refl _ _ _ _)).
  - unfold in_window. simpl. lia.
  - unfold in_window. simpl. lia.
  - intros H. apply list_elem_of_singleton in H. discriminate H.
  - intros H. apply list_elem_of_singleton in H. discriminate H.
Defined.
